(** * AgroFertilizer: the fertilizer recommendation service of [app.py]

    A shallow embedding of the request path of [app.py]: the start-up code
    that loads the four pickled artifacts and inverts the three category
    mappings, the one-row data frame that [recommend_fertilizer] fills in,
    and the two endpoints [get_categories] and [recommend_fertilizer].

    Python integers are [Z], Python strings are [string], a forward category
    mapping (an insertion-ordered [dict] from name to code) is an association
    list, and a reverse mapping (a [dict] that is only ever read with [.get])
    is a [gmap Z string]. *)

From stdpp Require Import gmap strings list.
From Stdlib Require Import ZArith.

Local Open Scope Z_scope.
Local Open Scope string_scope.
Local Open Scope list_scope.

(** ** Data model *)

(** [class FertilizerInput(BaseModel)]: eight required integers. *)
Record FertilizerInput := {
  Temparature : Z;
  Humidity : Z;
  Moisture : Z;
  Soil_Type_ID : Z;
  Crop_Type_ID : Z;
  Nitrogen : Z;
  Potassium : Z;
  Phosphorous : Z
}.

(** The example of [FertilizerInput.Config.json_schema_extra]. *)
Definition example_input : FertilizerInput :=
  {| Temparature := 34; Humidity := 65; Moisture := 54;
     Soil_Type_ID := 2; Crop_Type_ID := 10;
     Nitrogen := 38; Potassium := 0; Phosphorous := 0 |}.

(** A forward mapping as pickled: name to code, in insertion order. *)
Abbreviation CategoryMapping := (list (string * Z)).

(** The object unpickled from [fertilizer_backend_mappings.pkl]: a dict read
    at the three keys below. *)
Record BackendMappings := {
  soil_type_map : CategoryMapping;
  crop_type_map : CategoryMapping;
  fertilizer_map : CategoryMapping
}.

(** The one-row frame [pd.DataFrame(0, index=[0], columns=...)]: its columns
    in order, each with the value of row 0.  Column labels may repeat, as
    they may in pandas. *)
Abbreviation DataFrame := (list (string * Z)).

(** [input_df.columns] *)
Definition df_columns (df : DataFrame) : list string := df.*1.

(** [pd.DataFrame(0, index=[0], columns=cols)] *)
Definition DataFrame_zeros (cols : list string) : DataFrame :=
  (λ c, (c, 0)) <$> cols.

(** [df[key] = v] for a scalar [v]: every column labelled [key] is
    overwritten; when there is none, a new column is appended on the right. *)
Definition setitem (df : DataFrame) (key : string) (v : Z) : DataFrame :=
  if decide (key ∈ df_columns df)
  then (λ kv, if decide (kv.1 = key) then (kv.1, v) else kv) <$> df
  else df ++ [(key, v)].

(** [{v: k for k, v in m.items()}]: entries are inserted left to right, a
    later entry with the same code replaces the earlier one. *)
Definition reverse_map (m : CategoryMapping) : gmap Z string :=
  foldl (λ acc kv, <[kv.2 := kv.1]> acc) ∅ m.

(** Python exceptions that can reach the handlers of [recommend_fertilizer]:
    FastAPI's [HTTPException], and any other [Exception] with its [str]. *)
Inductive PyExc :=
  | HTTPException (status_code : Z) (detail : string)
  | Exception (msg : string).

(** The two request errors the endpoint raises itself. *)
Definition InvalidCategory : PyExc :=
  HTTPException 400 "Invalid Soil Type or Crop Type ID provided.".
Definition UnmappablePrediction : PyExc :=
  HTTPException 500 "Could not map prediction to a fertilizer name.".

(** [not x] for [x] the result of [dict.get] on a map to strings: [None] and
    the empty string are falsy. *)
Definition falsy (x : option string) : bool :=
  match x with
  | None => true
  | Some s => bool_decide (s = "")
  end.

(** [f'{x}'] for such an [x]. *)
Definition fmt (x : option string) : string :=
  match x with
  | None => "None"
  | Some s => s
  end.

Section Service.

(** ** External collaborators

    The unpickled classifier and scaler are opaque objects; the endpoint only
    calls [scaler.transform] and [model.predict] on them.  Both belong to the
    library the artifacts were trained with, not to this repository, and are
    taken as functions of the receiver and the argument: a call returns a
    value or raises an exception (given by its [str]), and [predict] returns
    the array of predicted class codes, one per row. *)
Context {Model Scaler Scaled : Type}.
Variable transform : Scaler → DataFrame → string + Scaled.
Variable predict : Model → Scaled → string + list Z.

(** ** Start-up: module-level state *)

Record Globals := {
  model : Model;
  scaler : Scaler;
  model_columns : list string;
  backend_mappings : BackendMappings;
  reverse_soil_map : gmap Z string;
  reverse_crop_map : gmap Z string;
  reverse_fertilizer_map : gmap Z string
}.

(** The working directory at import time: each artifact file, when present,
    with the object it unpickles to. *)
Record Files := {
  Best_Fertilizer_Recommendation_Model_pkl : option Model;
  fertilizer_scaler_pkl : option Scaler;
  fertilizer_model_columns_pkl : option (list string);
  fertilizer_backend_mappings_pkl : option BackendMappings
}.

Inductive Startup :=
  | Started (g : Globals)
  | RuntimeError (msg : string).

(** [str] of the [FileNotFoundError] that [open(name, 'rb')] raises. *)
Definition file_not_found (name : string) : string :=
  "[Errno 2] No such file or directory: '" +:+ name +:+ "'".

Definition could_not_load (name : string) : Startup :=
  RuntimeError ("Could not load a necessary artifact: " +:+ file_not_found name
                +:+ ". Ensure all .pkl files are present.").

(** Lines 25-40: the four [open]/[pickle.load] pairs in order, then the three
    dict comprehensions. *)
Definition startup (fs : Files) : Startup :=
  match Best_Fertilizer_Recommendation_Model_pkl fs with
  | None => could_not_load "Best_Fertilizer_Recommendation_Model.pkl"
  | Some m =>
    match fertilizer_scaler_pkl fs with
    | None => could_not_load "fertilizer_scaler.pkl"
    | Some s =>
      match fertilizer_model_columns_pkl fs with
      | None => could_not_load "fertilizer_model_columns.pkl"
      | Some cols =>
        match fertilizer_backend_mappings_pkl fs with
        | None => could_not_load "fertilizer_backend_mappings.pkl"
        | Some bm =>
          Started {| model := m;
                     scaler := s;
                     model_columns := cols;
                     backend_mappings := bm;
                     reverse_soil_map := reverse_map (soil_type_map bm);
                     reverse_crop_map := reverse_map (crop_type_map bm);
                     reverse_fertilizer_map := reverse_map (fertilizer_map bm) |}
        end
      end
    end
  end.

(** ** Requests: a state, error and trace monad

    A request handler runs against the module-level state, may raise, and
    calls into the external objects; the calls are recorded in order. *)

Inductive Call :=
  | CallTransform (df : DataFrame)
  | CallPredict (x : Scaled).

Inductive Outcome (A : Type) :=
  | Return (a : A)
  | Raise (e : PyExc).
Global Arguments Return {A} a.
Global Arguments Raise {A} e.

Record Ran (A : Type) := MkRan {
  outcome : Outcome A;
  globals_after : Globals;
  calls : list Call
}.
Global Arguments MkRan {A} _ _ _.
Global Arguments outcome {A} _.
Global Arguments globals_after {A} _.
Global Arguments calls {A} _.

Definition Req (A : Type) : Type := Globals → Ran A.

Definition ret {A} (a : A) : Req A := λ g, MkRan (Return a) g [].

Definition raise {A} (e : PyExc) : Req A := λ g, MkRan (Raise e) g [].

Definition bind {A B} (m : Req A) (k : A → Req B) : Req B := λ g,
  let r := m g in
  match outcome r with
  | Return a =>
    let r' := k a (globals_after r) in
    MkRan (outcome r') (globals_after r') (calls r ++ calls r')
  | Raise e => MkRan (Raise e) (globals_after r) (calls r)
  end.

(** Reading a module-level name. *)
Definition global {A} (f : Globals → A) : Req A := λ g, MkRan (Return (f g)) g [].

(** [try: body except ...: handler] *)
Definition try_except {A} (body : Req A) (handler : PyExc → Req A) : Req A := λ g,
  let r := body g in
  match outcome r with
  | Return a => r
  | Raise e =>
    let r' := handler e (globals_after r) in
    MkRan (outcome r') (globals_after r') (calls r ++ calls r')
  end.

(** Lifting a call that returns or raises. *)
Definition of_sum {A} (r : string + A) : Outcome A :=
  match r with
  | inl msg => Raise (Exception msg)
  | inr a => Return a
  end.

(** [scaler.transform(df)] *)
Definition call_transform (df : DataFrame) : Req Scaled := λ g,
  MkRan (of_sum (transform (scaler g) df)) g [CallTransform df].

(** [model.predict(x)] *)
Definition call_predict (x : Scaled) : Req (list Z) := λ g,
  MkRan (of_sum (predict (model g) x)) g [CallPredict x].

(** [a[0]] on the predicted array. *)
Definition getitem0 (a : list Z) : Req Z :=
  match a with
  | [] => raise (Exception "index 0 is out of bounds for axis 0 with size 0")
  | c :: _ => ret c
  end.

#[global] Instance Req_ret : MRet Req := @ret.
#[global] Instance Req_bind : MBind Req := λ A B k m, bind m k.

(** ** Endpoints *)

Record CategoryEntry := { id : Z; name : string }.

Record Categories := {
  soil_types : list CategoryEntry;
  crop_types : list CategoryEntry
}.

(** [[{"id": v, "name": k} for k, v in m.items()]] *)
Definition entries (m : CategoryMapping) : list CategoryEntry :=
  (λ kv, {| id := kv.2; name := kv.1 |}) <$> m.

Definition get_categories : Req Categories :=
  bm ← global backend_mappings;
  let soil := entries (soil_type_map bm) in
  bm' ← global backend_mappings;
  let crop := entries (crop_type_map bm') in
  mret {| soil_types := soil; crop_types := crop |}.

(** Lines 82-88: the zero frame over [model_columns] and the six numeric
    assignments. *)
Definition numeric_frame (cols : list string) (data : FertilizerInput) : DataFrame :=
  let input_df := DataFrame_zeros cols in
  let input_df := setitem input_df "Temparature" (Temparature data) in
  let input_df := setitem input_df "Humidity" (Humidity data) in
  let input_df := setitem input_df "Moisture" (Moisture data) in
  let input_df := setitem input_df "Nitrogen" (Nitrogen data) in
  let input_df := setitem input_df "Potassium" (Potassium data) in
  let input_df := setitem input_df "Phosphorous" (Phosphorous data) in
  input_df.

(** Lines 96-102: the two guarded one-hot assignments. *)
Definition one_hot (input_df : DataFrame) (soil_name crop_name : option string) : DataFrame :=
  let soil_col := "Soil_Type_" +:+ fmt soil_name in
  let crop_col := "Crop_Type_" +:+ fmt crop_name in
  let input_df :=
    if decide (soil_col ∈ df_columns input_df) then setitem input_df soil_col 1 else input_df in
  let input_df :=
    if decide (crop_col ∈ df_columns input_df) then setitem input_df crop_col 1 else input_df in
  input_df.

(** The response [{"recommended_fertilizer": recommendation}]; the value is
    whatever [dict.get] returned. *)
Record Recommendation := { recommended_fertilizer : option string }.

(** Lines 82-111, the body of the [try]. *)
Definition recommend_body (data : FertilizerInput) : Req Recommendation :=
  cols ← global model_columns;
  let input_df := numeric_frame cols data in
  rsm ← global reverse_soil_map;
  let soil_name := rsm !! Soil_Type_ID data in
  rcm ← global reverse_crop_map;
  let crop_name := rcm !! Crop_Type_ID data in
  if falsy soil_name || falsy crop_name then raise InvalidCategory else
  let input_df := one_hot input_df soil_name crop_name in
  input_scaled ← call_transform input_df;
  predicted ← call_predict input_scaled;
  predicted_fertilizer_num ← getitem0 predicted;
  rfm ← global reverse_fertilizer_map;
  let recommendation := rfm !! predicted_fertilizer_num in
  if falsy recommendation then raise UnmappablePrediction else
  mret {| recommended_fertilizer := recommendation |}.

(** Lines 112-115: an [HTTPException] is re-raised, anything else becomes a
    500. *)
Definition handler (e : PyExc) : Req Recommendation :=
  match e with
  | HTTPException _ _ => raise e
  | Exception msg =>
    raise (HTTPException 500 ("An internal server error occurred: " +:+ msg))
  end.

Definition recommend_fertilizer (data : FertilizerInput) : Req Recommendation :=
  try_except (recommend_body data) handler.

End Service.

(** ** A small deployment, used to run the endpoints on concrete requests *)

Module Demo.

(** A scaler that centres each feature, and rejects a frame whose width is
    not the one it was fitted on. *)
Record StandardScaler := { mean_ : list Z }.

Definition demo_transform (sc : StandardScaler) (df : DataFrame) : string + list Z :=
  if decide (length df = length (mean_ sc))
  then inr (zip_with Z.sub df.*2 (mean_ sc))
  else inl "X has a different number of features than StandardScaler is expecting.".

(** A classifier that answers the class it holds, once per input row. *)
Record ConstantClassifier := { constant : Z }.

Definition demo_predict (m : ConstantClassifier) (x : list Z) : string + list Z :=
  inr [constant m].

Definition demo_columns : list string :=
  ["Temparature"; "Humidity"; "Moisture"; "Nitrogen"; "Potassium"; "Phosphorous";
   "Soil_Type_Loamy"; "Soil_Type_Sandy"; "Crop_Type_Maize"; "Crop_Type_Sugarcane"].

Definition demo_mappings : BackendMappings :=
  {| soil_type_map := [("Black", 0); ("Loamy", 2); ("Sandy", 4)];
     crop_type_map := [("Maize", 3); ("Sugarcane", 10)];
     fertilizer_map := [("DAP", 0); ("Urea", 1)] |}.

Definition demo_files : Files :=
  {| Best_Fertilizer_Recommendation_Model_pkl := Some {| constant := 1 |};
     fertilizer_scaler_pkl := Some {| mean_ := [30; 60; 40; 20; 5; 5; 0; 0; 0; 0] |};
     fertilizer_model_columns_pkl := Some demo_columns;
     fertilizer_backend_mappings_pkl := Some demo_mappings |}.

(** The module-level state after importing [app.py] next to [demo_files]. *)
Definition demo_globals : Globals :=
  {| model := {| constant := 1 |};
     scaler := {| mean_ := [30; 60; 40; 20; 5; 5; 0; 0; 0; 0] |};
     model_columns := demo_columns;
     backend_mappings := demo_mappings;
     reverse_soil_map := reverse_map (soil_type_map demo_mappings);
     reverse_crop_map := reverse_map (crop_type_map demo_mappings);
     reverse_fertilizer_map := reverse_map (fertilizer_map demo_mappings) |}.

Definition demo_recommend : FertilizerInput → Req Recommendation :=
  recommend_fertilizer demo_transform demo_predict.

(** The same deployment with a column list that lost ["Temparature"]. *)
Definition drifted_columns : list string :=
  ["Humidity"; "Moisture"; "Nitrogen"; "Potassium"; "Phosphorous";
   "Soil_Type_Loamy"; "Soil_Type_Sandy"; "Crop_Type_Maize"; "Crop_Type_Sugarcane"].

Definition drifted_files : Files :=
  {| Best_Fertilizer_Recommendation_Model_pkl := Some {| constant := 1 |};
     fertilizer_scaler_pkl := Some {| mean_ := [60; 40; 20; 5; 5; 0; 0; 0; 0; 30] |};
     fertilizer_model_columns_pkl := Some drifted_columns;
     fertilizer_backend_mappings_pkl := Some demo_mappings |}.

Definition drifted_globals : Globals :=
  {| model := {| constant := 1 |};
     scaler := {| mean_ := [60; 40; 20; 5; 5; 0; 0; 0; 0; 30] |};
     model_columns := drifted_columns;
     backend_mappings := demo_mappings;
     reverse_soil_map := reverse_map (soil_type_map demo_mappings);
     reverse_crop_map := reverse_map (crop_type_map demo_mappings);
     reverse_fertilizer_map := reverse_map (fertilizer_map demo_mappings) |}.

(** A deployment whose soil mapping gives code 2 to two names. *)
Definition colliding_mappings : BackendMappings :=
  {| soil_type_map := [("Loamy", 2); ("Sandy", 2)];
     crop_type_map := [("Maize", 3); ("Sugarcane", 10)];
     fertilizer_map := [("DAP", 0); ("Urea", 1)] |}.

Definition colliding_files : Files :=
  {| Best_Fertilizer_Recommendation_Model_pkl := Some {| constant := 1 |};
     fertilizer_scaler_pkl := Some {| mean_ := [30; 60; 40; 20; 5; 5; 0; 0; 0; 0] |};
     fertilizer_model_columns_pkl := Some demo_columns;
     fertilizer_backend_mappings_pkl := Some colliding_mappings |}.

(** A deployment whose classifier answers a class that has no name. *)
Definition unmapped_files : Files :=
  {| Best_Fertilizer_Recommendation_Model_pkl := Some {| constant := 7 |};
     fertilizer_scaler_pkl := Some {| mean_ := [30; 60; 40; 20; 5; 5; 0; 0; 0; 0] |};
     fertilizer_model_columns_pkl := Some demo_columns;
     fertilizer_backend_mappings_pkl := Some demo_mappings |}.

Definition unmapped_globals : Globals :=
  {| model := {| constant := 7 |};
     scaler := {| mean_ := [30; 60; 40; 20; 5; 5; 0; 0; 0; 0] |};
     model_columns := demo_columns;
     backend_mappings := demo_mappings;
     reverse_soil_map := reverse_map (soil_type_map demo_mappings);
     reverse_crop_map := reverse_map (crop_type_map demo_mappings);
     reverse_fertilizer_map := reverse_map (fertilizer_map demo_mappings) |}.

(** A deployment in which a soil, a crop and a fertilizer are each named by
    the empty string. *)
Definition nameless_mappings : BackendMappings :=
  {| soil_type_map := [("", 0); ("Loamy", 2)];
     crop_type_map := [("", 3); ("Sugarcane", 10)];
     fertilizer_map := [("DAP", 0); ("", 1)] |}.

Definition nameless_globals : Globals :=
  {| model := {| constant := 1 |};
     scaler := {| mean_ := [30; 60; 40; 20; 5; 5; 0; 0; 0; 0] |};
     model_columns := demo_columns;
     backend_mappings := nameless_mappings;
     reverse_soil_map := reverse_map (soil_type_map nameless_mappings);
     reverse_crop_map := reverse_map (crop_type_map nameless_mappings);
     reverse_fertilizer_map := reverse_map (fertilizer_map nameless_mappings) |}.

(** Requests that differ from [example_input] in one category id. *)
Definition with_soil (i : Z) (data : FertilizerInput) : FertilizerInput :=
  {| Temparature := Temparature data; Humidity := Humidity data;
     Moisture := Moisture data; Soil_Type_ID := i;
     Crop_Type_ID := Crop_Type_ID data; Nitrogen := Nitrogen data;
     Potassium := Potassium data; Phosphorous := Phosphorous data |}.

Definition with_crop (i : Z) (data : FertilizerInput) : FertilizerInput :=
  {| Temparature := Temparature data; Humidity := Humidity data;
     Moisture := Moisture data; Soil_Type_ID := Soil_Type_ID data;
     Crop_Type_ID := i; Nitrogen := Nitrogen data;
     Potassium := Potassium data; Phosphorous := Phosphorous data |}.

(** A deployment whose scaler was fitted on three features only: it rejects
    every ten-column row. *)
Definition narrow_globals : Globals :=
  {| model := {| constant := 1 |};
     scaler := {| mean_ := [0; 0; 0] |};
     model_columns := demo_columns;
     backend_mappings := demo_mappings;
     reverse_soil_map := reverse_map (soil_type_map demo_mappings);
     reverse_crop_map := reverse_map (crop_type_map demo_mappings);
     reverse_fertilizer_map := reverse_map (fertilizer_map demo_mappings) |}.

(** A deployment whose soil mapping is empty. *)
Definition soilless_mappings : BackendMappings :=
  {| soil_type_map := [];
     crop_type_map := [("Maize", 3); ("Sugarcane", 10)];
     fertilizer_map := [("DAP", 0); ("Urea", 1)] |}.

Definition soilless_files : Files :=
  {| Best_Fertilizer_Recommendation_Model_pkl := Some {| constant := 1 |};
     fertilizer_scaler_pkl := Some {| mean_ := [30; 60; 40; 20; 5; 5; 0; 0; 0; 0] |};
     fertilizer_model_columns_pkl := Some demo_columns;
     fertilizer_backend_mappings_pkl := Some soilless_mappings |}.

Definition soilless_globals : Globals :=
  {| model := {| constant := 1 |};
     scaler := {| mean_ := [30; 60; 40; 20; 5; 5; 0; 0; 0; 0] |};
     model_columns := demo_columns;
     backend_mappings := soilless_mappings;
     reverse_soil_map := reverse_map (soil_type_map soilless_mappings);
     reverse_crop_map := reverse_map (crop_type_map soilless_mappings);
     reverse_fertilizer_map := reverse_map (fertilizer_map soilless_mappings) |}.

(** A schema without any one-hot column for soil. *)
Definition soilblind_columns : list string :=
  ["Temparature"; "Humidity"; "Moisture"; "Nitrogen"; "Potassium"; "Phosphorous";
   "Crop_Type_Maize"; "Crop_Type_Sugarcane"].

Definition soilblind_globals : Globals :=
  {| model := {| constant := 1 |};
     scaler := {| mean_ := [30; 60; 40; 20; 5; 5; 0; 0] |};
     model_columns := soilblind_columns;
     backend_mappings := demo_mappings;
     reverse_soil_map := reverse_map (soil_type_map demo_mappings);
     reverse_crop_map := reverse_map (crop_type_map demo_mappings);
     reverse_fertilizer_map := reverse_map (fertilizer_map demo_mappings) |}.

End Demo.

(** ** Vocabulary of the statements *)

(** The six numeric fields, as column labels, in the order of assignment. *)
Definition numeric_names : list string :=
  ["Temparature"; "Humidity"; "Moisture"; "Nitrogen"; "Potassium"; "Phosphorous"].

(** The value that the six assignments leave in a column labelled [key]:
    the like-named field, and 0 for any other label.  The tests run from the
    last assignment to the first. *)
Definition numeric_field (data : FertilizerInput) (key : string) : Z :=
  if decide (key = "Phosphorous") then Phosphorous data
  else if decide (key = "Potassium") then Potassium data
  else if decide (key = "Nitrogen") then Nitrogen data
  else if decide (key = "Moisture") then Moisture data
  else if decide (key = "Humidity") then Humidity data
  else if decide (key = "Temparature") then Temparature data
  else 0.

Definition soil_col (soil_name : string) : string := "Soil_Type_" +:+ soil_name.
Definition crop_col (crop_name : string) : string := "Crop_Type_" +:+ crop_name.

(** The frame that [recommend_fertilizer] hands to the scaler. *)
Definition feature_row (cols : list string) (data : FertilizerInput)
    (soil_name crop_name : option string) : DataFrame :=
  one_hot (numeric_frame cols data) soil_name crop_name.

(** The value a column labelled [c] is expected to hold in that frame. *)
Definition feature_cell (data : FertilizerInput) (soil_name crop_name c : string) : Z :=
  if decide (c = soil_col soil_name ∨ c = crop_col crop_name) then 1
  else numeric_field data c.

(** The row of a request against the state [g]. *)
Definition request_row {Model Scaler : Type} (g : @Globals Model Scaler)
    (data : FertilizerInput) : DataFrame :=
  feature_row (model_columns g) data
    (reverse_soil_map g !! Soil_Type_ID data)
    (reverse_crop_map g !! Crop_Type_ID data).

(** The detail of the 500 that wraps an exception other than
    [HTTPException]. *)
Definition internal_error (msg : string) : PyExc :=
  HTTPException 500 ("An internal server error occurred: " +:+ msg).

(** A handler that only reads the module-level state. *)
Definition read_only {Model Scaler Scaled A : Type}
    (m : @Req Model Scaler Scaled A) : Prop :=
  ∀ g, globals_after (m g) = g.

(** The three category domains, with the forward mapping and the reverse
    mapping of each. *)
Inductive Domain := Soil | Crop | Fertilizer.

Definition forward (d : Domain) (bm : BackendMappings) : CategoryMapping :=
  match d with
  | Soil => soil_type_map bm
  | Crop => crop_type_map bm
  | Fertilizer => fertilizer_map bm
  end.

Definition reverse {Model Scaler : Type} (d : Domain) (g : @Globals Model Scaler) :
    gmap Z string :=
  match d with
  | Soil => reverse_soil_map g
  | Crop => reverse_crop_map g
  | Fertilizer => reverse_fertilizer_map g
  end.

(** The entries of a forward mapping that carry the code [c], in order. *)
Definition carrying (c : Z) (m : CategoryMapping) : CategoryMapping :=
  filter (λ kv, kv.2 = c) m.

(** The row that the concrete scenario of the specification expects for
    [example_input], column by column. *)
Definition scenario_cell (c : string) : Z :=
  if decide (c = "Temparature") then 34
  else if decide (c = "Humidity") then 65
  else if decide (c = "Moisture") then 54
  else if decide (c = "Nitrogen") then 38
  else if decide (c = "Potassium") then 0
  else if decide (c = "Phosphorous") then 0
  else if decide (c = "Soil_Type_Loamy") then 1
  else if decide (c = "Crop_Type_Sugarcane") then 1
  else 0.

Definition scenario_names : list string :=
  ["Temparature"; "Humidity"; "Moisture"; "Nitrogen"; "Potassium"; "Phosphorous";
   "Soil_Type_Loamy"; "Crop_Type_Sugarcane"].

(** The numeric labels that the schema [cols] lacks, in the order of
    assignment. *)
Definition missing_numeric (cols : list string) : list string :=
  filter (λ k, k ∉ cols) numeric_names.

(** * Properties *)

Global Arguments setitem : simpl never.
Global Arguments numeric_frame : simpl never.
Global Arguments one_hot : simpl never.
Global Arguments feature_row : simpl never.
Global Arguments request_row : simpl never.
Global Arguments reverse_map : simpl never.

(** ** Data frames *)

Section Frames.

Implicit Types (df : DataFrame) (cols : list string) (key c : string) (v : Z).

Lemma df_columns_zeros cols : df_columns (DataFrame_zeros cols) = cols.
Proof.
  unfold df_columns, DataFrame_zeros.
  rewrite <- list_fmap_compose. apply list_fmap_id.
Qed.

(** Assignment keeps the labels when [key] is one of them and appends it
    otherwise. *)
Lemma df_columns_setitem df key v :
  df_columns (setitem df key v) =
  if decide (key ∈ df_columns df) then df_columns df else df_columns df ++ [key].
Proof.
  unfold setitem, df_columns. case_decide as Hin.
  - rewrite <- list_fmap_compose. apply list_fmap_ext.
    intros i [k x] _. simpl. by case_decide.
  - by rewrite fmap_app.
Qed.

Lemma df_columns_setitem_present df key v :
  key ∈ df_columns df → df_columns (setitem df key v) = df_columns df.
Proof. intros Hin. rewrite df_columns_setitem. by rewrite decide_True. Qed.

Lemma length_setitem_present df key v :
  key ∈ df_columns df → length (setitem df key v) = length df.
Proof.
  intros Hin. unfold setitem. rewrite decide_True by done. by rewrite length_fmap.
Qed.

(** The columns of [df] stay in front, in order. *)
Lemma df_columns_setitem_prefix df key v :
  (df_columns df) `prefix_of` (df_columns (setitem df key v)).
Proof.
  rewrite df_columns_setitem. case_decide; [done | by apply prefix_app_r].
Qed.

(** After the assignment the column [key] exists. *)
Lemma setitem_key_in df key v : key ∈ df_columns (setitem df key v).
Proof.
  rewrite df_columns_setitem. case_decide; [done | set_solver].
Qed.

(** The cells of the frame after an assignment. *)
Lemma elem_of_setitem df key v c x :
  (c, x) ∈ setitem df key v ↔
  (c = key ∧ x = v) ∨ (c ≠ key ∧ (c, x) ∈ df).
Proof.
  unfold setitem. case_decide as Hin.
  - rewrite list_elem_of_fmap. split.
    + intros [[k y] [Heq Hel]]. simpl in Heq. case_decide; simplify_eq; eauto.
    + intros [[-> ->] | [Hne Hel]].
      * apply list_elem_of_fmap in Hin as [[k y] [-> Hel]].
        exists (k, y). simpl. by rewrite decide_True.
      * exists (c, x). simpl. by rewrite decide_False.
  - rewrite elem_of_app, list_elem_of_singleton. split.
    + intros [Hel | ?]; simplify_eq; eauto.
      right. split; [| done]. intros ->. apply Hin.
      apply list_elem_of_fmap. by exists (key, x).
    + intros [[-> ->] | [_ Hel]]; eauto.
Qed.

Lemma elem_of_zeros cols c x : (c, x) ∈ DataFrame_zeros cols ↔ c ∈ cols ∧ x = 0.
Proof.
  unfold DataFrame_zeros. rewrite list_elem_of_fmap. split.
  - intros [k [Heq Hel]]. by simplify_eq.
  - intros [Hel ->]. by exists c.
Qed.

End Frames.

(** ** The feature row *)

Section FeatureRow.

Implicit Types (df : DataFrame) (cols : list string) (c : string) (x : Z).
Implicit Types (data : FertilizerInput).

Lemma soil_col_not_numeric s : soil_col s ∉ numeric_names.
Proof.
  unfold soil_col, numeric_names. simpl. rewrite !elem_of_cons, elem_of_nil.
  intros [H | [H | [H | [H | [H | [H | []]]]]]]; discriminate H.
Qed.

Lemma crop_col_not_numeric s : crop_col s ∉ numeric_names.
Proof.
  unfold crop_col, numeric_names. simpl. rewrite !elem_of_cons, elem_of_nil.
  intros [H | [H | [H | [H | [H | [H | []]]]]]]; discriminate H.
Qed.

Lemma soil_col_not_crop_col s t : soil_col s ≠ crop_col t.
Proof. unfold soil_col, crop_col. simpl. discriminate. Qed.

Lemma numeric_field_other data c : c ∉ numeric_names → numeric_field data c = 0.
Proof.
  unfold numeric_names. rewrite !not_elem_of_cons. intros (? & ? & ? & ? & ? & ? & _).
  unfold numeric_field. by rewrite !decide_False.
Qed.

(** The six assignments never drop or reorder a schema column. *)
Lemma numeric_frame_prefix cols data :
  cols `prefix_of` df_columns (numeric_frame cols data).
Proof.
  unfold numeric_frame.
  repeat (etrans; [| apply df_columns_setitem_prefix]).
  by rewrite df_columns_zeros.
Qed.

Lemma elem_of_setitem_columns df key v c :
  c ∈ df_columns (setitem df key v) ↔ c = key ∨ c ∈ df_columns df.
Proof.
  rewrite df_columns_setitem. case_decide as Hin.
  - split; [by right | by intros [-> | ?]].
  - rewrite elem_of_app, list_elem_of_singleton. tauto.
Qed.

Lemma elem_of_numeric_frame_columns cols data c :
  c ∈ df_columns (numeric_frame cols data) ↔ c ∈ numeric_names ∨ c ∈ cols.
Proof.
  unfold numeric_frame, numeric_names.
  rewrite !elem_of_setitem_columns, df_columns_zeros, !elem_of_cons, elem_of_nil.
  tauto.
Qed.

(** With the six numeric labels in the schema, the labels of the frame are
    the schema. *)
Lemma numeric_frame_columns cols data :
  numeric_names ⊆ cols → df_columns (numeric_frame cols data) = cols.
Proof.
  intros Hsub. unfold numeric_frame.
  assert (Hin : ∀ k, k ∈ numeric_names → k ∈ cols) by (intros k; apply Hsub).
  repeat (rewrite df_columns_setitem_present;
          [| rewrite ?elem_of_setitem_columns, df_columns_zeros; repeat right;
             apply Hin; unfold numeric_names; set_solver]).
  apply df_columns_zeros.
Qed.

(** An assignment overrides what a frame holds column by column. *)
Lemma setitem_cells df key v (f : string → Z) :
  (∀ c x, (c, x) ∈ df → x = f c) →
  ∀ c x, (c, x) ∈ setitem df key v → x = if decide (c = key) then v else f c.
Proof.
  intros Hf c x [[-> ->] | [Hne Hel]]%elem_of_setitem.
  - by rewrite decide_True.
  - rewrite decide_False by done. by apply Hf.
Qed.

(** Every cell of the frame holds the like-named field, or 0. *)
Lemma numeric_frame_cells cols data c x :
  (c, x) ∈ numeric_frame cols data → x = numeric_field data c.
Proof.
  unfold numeric_frame, numeric_field. revert c x.
  do 6 (lazymatch goal with
        | |- ∀ c x, (c, x) ∈ setitem ?df ?key ?v →
                    x = (if decide (c = _) then _ else @?f c) =>
          apply (setitem_cells df key v f)
        end).
  by intros c x [_ ->]%elem_of_zeros.
Qed.

(** [one_hot] never adds a column: both assignments are guarded. *)
Lemma one_hot_columns df s t : df_columns (one_hot df s t) = df_columns df.
Proof.
  unfold one_hot.
  repeat (case_decide; rewrite ?df_columns_setitem_present; try done).
Qed.

Lemma one_hot_cells df s t c x :
  (c, x) ∈ one_hot df (Some s) (Some t) →
  (x = 1 ∧ (c = soil_col s ∨ c = crop_col t)) ∨
  ((c, x) ∈ df ∧ c ≠ soil_col s ∧ c ≠ crop_col t).
Proof.
  unfold one_hot, fmt. fold (soil_col s) (crop_col t).
  assert (Hin : ∀ d k, (c, x) ∈ d → k ∉ df_columns d → c ≠ k).
  { intros d k Hel Hk ->. apply Hk. apply list_elem_of_fmap. by exists (k, x). }
  destruct (decide (soil_col s ∈ df_columns df)) as [Hs | Hs];
    case_decide as Ht; intros Hel.
  - apply elem_of_setitem in Hel as [[-> ->] | [Hne Hel]]; [by eauto |].
    apply elem_of_setitem in Hel as [[-> ->] | [Hne' Hel]]; eauto.
  - pose proof (Hin _ _ Hel Ht) as Hne.
    apply elem_of_setitem in Hel as [[-> ->] | [Hne' Hel]]; eauto.
  - pose proof (λ H, Hin df (soil_col s) H Hs) as Hne.
    apply elem_of_setitem in Hel as [[-> ->] | [Hne' Hel]]; eauto.
  - pose proof (Hin _ _ Hel Hs). pose proof (Hin _ _ Hel Ht). eauto.
Qed.

Lemma feature_row_eq cols data s t :
  feature_row cols data s t = one_hot (numeric_frame cols data) s t.
Proof. reflexivity. Qed.

Lemma feature_row_columns cols data s t :
  df_columns (feature_row cols data s t) = df_columns (numeric_frame cols data).
Proof. rewrite feature_row_eq. apply one_hot_columns. Qed.

(** Every cell of the row handed to the scaler holds its expected value. *)
Lemma feature_row_cells cols data s t c x :
  (c, x) ∈ feature_row cols data (Some s) (Some t) → x = feature_cell data s t c.
Proof.
  rewrite feature_row_eq. intros Hel%one_hot_cells. unfold feature_cell.
  destruct Hel as [[-> Hc] | (Hel & Hs & Ht)].
  - by rewrite decide_True.
  - rewrite decide_False by tauto. by eapply numeric_frame_cells.
Qed.

(** A one-hot column that is present in the frame is set. *)
Lemma feature_cell_soil data s t : feature_cell data s t (soil_col s) = 1.
Proof. unfold feature_cell. rewrite decide_True; auto. Qed.

Lemma feature_cell_crop data s t : feature_cell data s t (crop_col t) = 1.
Proof. unfold feature_cell. rewrite decide_True; auto. Qed.

Lemma feature_cell_numeric data s t c :
  c ∈ numeric_names → feature_cell data s t c = numeric_field data c.
Proof.
  intros Hc. unfold feature_cell. rewrite decide_False; [done |].
  intros [-> | ->]; [by apply soil_col_not_numeric in Hc | by apply crop_col_not_numeric in Hc].
Qed.

Lemma feature_cell_other data s t c :
  c ∉ numeric_names → c ≠ soil_col s → c ≠ crop_col t → feature_cell data s t c = 0.
Proof.
  intros Hc Hs Ht. unfold feature_cell. rewrite decide_False by tauto.
  by apply numeric_field_other.
Qed.

End FeatureRow.

(** ** Running a request *)

Section Runs.

Context {Model Scaler Scaled : Type}.
Variable transform : Scaler → DataFrame → string + Scaled.
Variable predict : Model → Scaled → string + list Z.

Local Abbreviation Globals := (@Globals Model Scaler).
Local Abbreviation Req := (@Req Model Scaler Scaled).
Local Abbreviation recommend := (@recommend_fertilizer Model Scaler Scaled transform predict).

Implicit Types (g : Globals) (data : FertilizerInput).

(** *** Frame rules of the request monad *)

Lemma read_only_ret {A} (a : A) : read_only (ret a : Req A).
Proof. done. Qed.

Lemma read_only_raise {A} e : read_only (raise e : Req A).
Proof. done. Qed.

Lemma read_only_global {A} (f : Globals → A) : read_only (global f : Req A).
Proof. done. Qed.

Lemma read_only_call_transform df : read_only (call_transform transform df : Req Scaled).
Proof. done. Qed.

Lemma read_only_call_predict x : read_only (call_predict predict x : Req (list Z)).
Proof. done. Qed.

Lemma read_only_getitem0 a : read_only (getitem0 a : Req Z).
Proof. by destruct a. Qed.

Lemma read_only_bind {A B} (m : Req A) (k : A → Req B) :
  read_only m → (∀ a, read_only (k a)) → read_only (bind m k).
Proof.
  intros Hm Hk g. unfold bind. specialize (Hm g).
  destruct (outcome (m g)) as [a | e]; simpl; [| done].
  rewrite Hm. apply Hk.
Qed.

Lemma read_only_try_except {A} (body : Req A) (h : PyExc → Req A) :
  read_only body → (∀ e, read_only (h e)) → read_only (try_except body h).
Proof.
  intros Hb Hh g. unfold try_except. specialize (Hb g).
  destruct (outcome (body g)) as [a | e]; simpl; [done |].
  rewrite Hb. apply Hh.
Qed.

Lemma read_only_handler e : read_only (handler e : Req Recommendation).
Proof. destruct e; apply read_only_raise. Qed.

Lemma read_only_recommend_body data :
  read_only (recommend_body transform predict data : Req Recommendation).
Proof.
  unfold recommend_body.
  repeat first
    [ apply read_only_bind; [| intros ?]
    | apply read_only_global
    | apply read_only_call_transform
    | apply read_only_call_predict
    | apply read_only_getitem0
    | apply read_only_raise
    | apply (read_only_ret (A := Recommendation))
    | match goal with |- read_only (if ?b then _ else _) => destruct b end ].
Qed.

Lemma read_only_recommend data : read_only (recommend data).
Proof.
  apply read_only_try_except; [apply read_only_recommend_body | apply read_only_handler].
Qed.

Lemma read_only_get_categories : read_only (get_categories : Req Categories).
Proof.
  unfold get_categories.
  repeat first
    [ apply read_only_bind; [| intros ?]
    | apply read_only_global
    | apply (read_only_ret (A := Categories)) ].
Qed.

(** *** Steps of the request monad *)

Lemma run_bind_global {A B} (f : Globals → A) (k : A → Req B) g :
  (global f ≫= k) g = k (f g) g.
Proof.
  unfold mbind, Req_bind, bind, global. cbn [outcome globals_after calls app].
  by destruct (k (f g) g).
Qed.

Lemma run_bind_raise {A B} e (k : A → Req B) g :
  ((raise e : Req A) ≫= k) g = MkRan (Raise e) g [].
Proof. done. Qed.

Lemma run_bind_ret {A B} (a : A) (k : A → Req B) g :
  ((ret a : Req A) ≫= k) g = k a g.
Proof.
  unfold mbind, Req_bind, bind, ret. cbn [outcome globals_after calls app].
  by destruct (k a g).
Qed.

Lemma run_bind_call_transform {B} df (k : Scaled → Req B) g :
  (call_transform transform df ≫= k) g =
  match transform (scaler g) df with
  | inl msg => MkRan (Raise (Exception msg)) g [CallTransform df]
  | inr x =>
    MkRan (outcome (k x g)) (globals_after (k x g)) (CallTransform df :: calls (k x g))
  end.
Proof.
  unfold mbind, Req_bind, bind, call_transform. cbn [outcome globals_after calls].
  by destruct (transform (scaler g) df).
Qed.

Lemma run_bind_call_predict {B} x (k : list Z → Req B) g :
  (call_predict predict x ≫= k) g =
  match predict (model g) x with
  | inl msg => MkRan (Raise (Exception msg)) g [CallPredict x]
  | inr a =>
    MkRan (outcome (k a g)) (globals_after (k a g)) (CallPredict x :: calls (k a g))
  end.
Proof.
  unfold mbind, Req_bind, bind, call_predict. cbn [outcome globals_after calls].
  by destruct (predict (model g) x).
Qed.

Lemma run_bind_getitem0 {B} a (k : Z → Req B) g :
  (getitem0 a ≫= k) g =
  match a with
  | [] => MkRan (Raise (Exception "index 0 is out of bounds for axis 0 with size 0")) g []
  | c :: _ => k c g
  end.
Proof. destruct a; [done | apply run_bind_ret]. Qed.

(** *** The run of [recommend_fertilizer], case by case *)

Lemma recommend_body_run data g :
  recommend_body transform predict data g =
  if falsy (reverse_soil_map g !! Soil_Type_ID data)
     || falsy (reverse_crop_map g !! Crop_Type_ID data)
  then MkRan (Raise InvalidCategory) g []
  else
    match transform (scaler g) (request_row g data) with
    | inl msg => MkRan (Raise (Exception msg)) g [CallTransform (request_row g data)]
    | inr x =>
      match predict (model g) x with
      | inl msg =>
        MkRan (Raise (Exception msg)) g [CallTransform (request_row g data); CallPredict x]
      | inr [] =>
        MkRan (Raise (Exception "index 0 is out of bounds for axis 0 with size 0")) g
          [CallTransform (request_row g data); CallPredict x]
      | inr (c :: _) =>
        if falsy (reverse_fertilizer_map g !! c)
        then MkRan (Raise UnmappablePrediction) g
               [CallTransform (request_row g data); CallPredict x]
        else MkRan (Return {| recommended_fertilizer := reverse_fertilizer_map g !! c |}) g
               [CallTransform (request_row g data); CallPredict x]
      end
    end.
Proof.
  unfold recommend_body, request_row, feature_row. rewrite !run_bind_global.
  destruct (falsy _ || falsy _); [done |].
  rewrite run_bind_call_transform.
  destruct (transform _ _) as [msg | x]; [done |].
  rewrite run_bind_call_predict.
  destruct (predict _ _) as [msg | [| c rest]]; [done | done |].
  rewrite run_bind_getitem0, run_bind_global.
  by destruct (falsy _).
Qed.

Lemma recommend_fertilizer_run data g :
  recommend data g =
  if falsy (reverse_soil_map g !! Soil_Type_ID data)
     || falsy (reverse_crop_map g !! Crop_Type_ID data)
  then MkRan (Raise InvalidCategory) g []
  else
    match transform (scaler g) (request_row g data) with
    | inl msg => MkRan (Raise (internal_error msg)) g [CallTransform (request_row g data)]
    | inr x =>
      match predict (model g) x with
      | inl msg =>
        MkRan (Raise (internal_error msg)) g
          [CallTransform (request_row g data); CallPredict x]
      | inr [] =>
        MkRan (Raise (internal_error "index 0 is out of bounds for axis 0 with size 0")) g
          [CallTransform (request_row g data); CallPredict x]
      | inr (c :: _) =>
        if falsy (reverse_fertilizer_map g !! c)
        then MkRan (Raise UnmappablePrediction) g
               [CallTransform (request_row g data); CallPredict x]
        else MkRan (Return {| recommended_fertilizer := reverse_fertilizer_map g !! c |}) g
               [CallTransform (request_row g data); CallPredict x]
      end
    end.
Proof.
  unfold recommend_fertilizer, try_except. rewrite recommend_body_run.
  destruct (falsy _ || falsy _); [done |].
  destruct (transform _ _) as [msg | x]; [done |].
  destruct (predict _ _) as [msg | [| c rest]]; [done | done |].
  by destruct (falsy _).
Qed.

Lemma request_row_resolved data g s t :
  reverse_soil_map g !! Soil_Type_ID data = Some s →
  reverse_crop_map g !! Crop_Type_ID data = Some t →
  request_row g data = feature_row (model_columns g) data (Some s) (Some t).
Proof. intros Hs Ht. unfold request_row. by rewrite Hs, Ht. Qed.

Lemma request_row_columns data g :
  df_columns (request_row g data) = df_columns (numeric_frame (model_columns g) data).
Proof. unfold request_row. apply feature_row_columns. Qed.

Lemma falsy_nonempty s : s ≠ "" → falsy (Some s) = false.
Proof. intros Hs. simpl. by apply bool_decide_eq_false. Qed.

Lemma falsy_false o : falsy o = false → ∃ s, o = Some s ∧ s ≠ "".
Proof.
  destruct o as [s |]; [| done]. simpl. intros Hs%bool_decide_eq_false. eauto.
Qed.

(** A request that passes the name test reaches the scaler with its row. *)
Lemma recommend_calls_transform data g :
  falsy (reverse_soil_map g !! Soil_Type_ID data)
  || falsy (reverse_crop_map g !! Crop_Type_ID data) = false →
  ∃ rest, calls (recommend data g) = CallTransform (request_row g data) :: rest.
Proof.
  intros Hok. rewrite recommend_fertilizer_run, Hok.
  destruct (transform _ _) as [msg | x]; [by eexists |].
  destruct (predict _ _) as [msg | [| c rest]]; [by eexists ..|].
  destruct (falsy (reverse_fertilizer_map g !! c)); by eexists.
Qed.

(** Whatever goes wrong in a request leaves as an [HTTPException]. *)
Lemma recommend_raises_http data g e :
  outcome (recommend data g) = Raise e →
  ∃ status detail, e = HTTPException status detail ∧ (status = 400 ∨ status = 500).
Proof.
  rewrite recommend_fertilizer_run.
  destruct (falsy _ || falsy _); [intros [= <-]; eexists _, _; eauto |].
  destruct (transform _ _) as [msg | x]; [intros [= <-]; eexists _, _; eauto |].
  destruct (predict _ _) as [msg | [| c rest]];
    try (intros [= <-]; eexists _, _; by eauto).
  destruct (falsy _); [intros [= <-]; eexists _, _; eauto | done].
Qed.

(** Past the name test no 400 is raised. *)
Lemma recommend_not_rejected data g detail :
  falsy (reverse_soil_map g !! Soil_Type_ID data)
  || falsy (reverse_crop_map g !! Crop_Type_ID data) = false →
  outcome (recommend data g) ≠ Raise (HTTPException 400 detail).
Proof.
  intros Hok. rewrite recommend_fertilizer_run, Hok.
  destruct (transform _ _) as [msg | x]; [done |].
  destruct (predict _ _) as [msg | [| c rest]]; try done.
  by destruct (falsy (reverse_fertilizer_map g !! c)).
Qed.

(** The one way to a response. *)
Lemma recommend_returns data g rec :
  outcome (recommend data g) = Return rec ↔
  falsy (reverse_soil_map g !! Soil_Type_ID data)
  || falsy (reverse_crop_map g !! Crop_Type_ID data) = false ∧
  ∃ x c rest n,
    transform (scaler g) (request_row g data) = inr x ∧
    predict (model g) x = inr (c :: rest) ∧
    reverse_fertilizer_map g !! c = Some n ∧ n ≠ "" ∧
    rec = {| recommended_fertilizer := Some n |}.
Proof.
  rewrite recommend_fertilizer_run. split.
  - destruct (falsy _ || falsy _); [done |].
    destruct (transform _ _) as [msg | x] eqn:Ht; [done |].
    destruct (predict _ _) as [msg | [| c rest]] eqn:Hp; try done.
    destruct (falsy (reverse_fertilizer_map g !! c)) eqn:Hf; [done |]. intros [= <-].
    apply falsy_false in Hf as (n & Hn & Hne).
    split; [done |]. exists x, c, rest, n. by rewrite Hn.
  - intros (-> & x & c & rest & n & -> & -> & -> & Hne & ->).
    by rewrite falsy_nonempty.
Qed.

End Runs.

(** ** Reverse mappings *)

Section ReverseMaps.

Implicit Types (m : CategoryMapping) (c : Z) (n : string).

Lemma reverse_map_snoc m n c :
  reverse_map (m ++ [(n, c)]) = <[c := n]> (reverse_map m).
Proof. unfold reverse_map. by rewrite foldl_app. Qed.

(** A code is looked up to the name of the last entry that carries it. *)
Lemma reverse_map_lookup m c :
  reverse_map m !! c = fst <$> last (carrying c m).
Proof.
  unfold carrying. induction m as [| [n c'] m IH] using rev_ind; [done |].
  rewrite reverse_map_snoc, filter_app, lookup_insert.
  rewrite filter_cons, filter_nil. simpl. case_decide as Hc.
  - subst c'. by rewrite last_snoc.
  - by rewrite app_nil_r.
Qed.

Lemma reverse_map_elem_of m c n : reverse_map m !! c = Some n → (n, c) ∈ m.
Proof.
  rewrite reverse_map_lookup. unfold carrying. intros Hl.
  destruct (last _) as [[n' c'] |] eqn:Hlast; [| done]. simpl in Hl. simplify_eq.
  apply last_Some_elem_of in Hlast.
  apply list_elem_of_filter in Hlast as [Hc Hel]. simpl in Hc. by subst.
Qed.

Lemma reverse_map_is_Some m c n : (n, c) ∈ m → is_Some (reverse_map m !! c).
Proof.
  intros Hel. rewrite reverse_map_lookup. unfold carrying.
  destruct (last _) as [kv |] eqn:Hlast; [by eexists |].
  apply last_None in Hlast.
  assert (Hin : (n, c) ∈ filter (λ kv : string * Z, kv.2 = c) m)
    by (by apply list_elem_of_filter).
  rewrite Hlast in Hin. by apply elem_of_nil in Hin.
Qed.

End ReverseMaps.

(** ** Start-up *)

Section Startup.

Context {Model Scaler : Type}.

Implicit Types (fs : @Files Model Scaler) (g : @Globals Model Scaler).

(** With the four files in place the import succeeds, whatever the pickled
    objects are. *)
Lemma startup_present (md : Model) (sc : Scaler) cols bm :
  startup {| Best_Fertilizer_Recommendation_Model_pkl := Some md;
             fertilizer_scaler_pkl := Some sc;
             fertilizer_model_columns_pkl := Some cols;
             fertilizer_backend_mappings_pkl := Some bm |} =
  Started {| model := md; scaler := sc; model_columns := cols; backend_mappings := bm;
             reverse_soil_map := reverse_map (soil_type_map bm);
             reverse_crop_map := reverse_map (crop_type_map bm);
             reverse_fertilizer_map := reverse_map (fertilizer_map bm) |}.
Proof. done. Qed.

(** The state of a started process: the pickled objects, and the three
    inverted mappings. *)
Lemma startup_Started fs g :
  startup fs = Started g →
  fertilizer_model_columns_pkl fs = Some (model_columns g) ∧
  fertilizer_backend_mappings_pkl fs = Some (backend_mappings g) ∧
  reverse_soil_map g = reverse_map (soil_type_map (backend_mappings g)) ∧
  reverse_crop_map g = reverse_map (crop_type_map (backend_mappings g)) ∧
  reverse_fertilizer_map g = reverse_map (fertilizer_map (backend_mappings g)).
Proof.
  unfold startup. destruct fs as [[md |] [sc |] [cols |] [bm |]]; simpl; try done.
  by intros [= <-].
Qed.

End Startup.

(** * The claims *)

Section Claims.

Context {Model Scaler Scaled : Type}.
Variable transform : Scaler → DataFrame → string + Scaled.
Variable predict : Model → Scaled → string + list Z.

Local Abbreviation Globals := (@Globals Model Scaler).

Implicit Types (g : Globals) (data : FertilizerInput).

(** C1: a request whose Soil_Type_ID or Crop_Type_ID has no entry in the
    corresponding reverse mapping fails with InvalidCategory, the
    [HTTPException] of status 400, and the run calls neither
    [scaler.transform] nor [model.predict]. *)
Theorem unknown_category_rejected data g :
  reverse_soil_map g !! Soil_Type_ID data = None ∨
  reverse_crop_map g !! Crop_Type_ID data = None →
  outcome (recommend_fertilizer transform predict data g) =
    Raise (HTTPException 400 "Invalid Soil Type or Crop Type ID provided.") ∧
  calls (recommend_fertilizer transform predict data g) = [].
Proof.
  intros Hnone. rewrite recommend_fertilizer_run.
  assert (falsy (reverse_soil_map g !! Soil_Type_ID data)
          || falsy (reverse_crop_map g !! Crop_Type_ID data) = true) as ->; [| done].
  destruct Hnone as [-> | ->]; [done | apply orb_true_r].
Qed.

(** C8: the two lookups test the name for falsiness, not the key for
    presence.  An id that the reverse soil or crop mapping sends to the empty
    string is rejected with InvalidCategory (status 400) although it has an
    entry; and when the request passes that test and the scaler and the
    classifier answer, a predicted class that the reverse fertilizer mapping
    sends to the empty string fails with UnmappablePrediction (status 500). *)
Theorem empty_name_is_falsy data g :
  (reverse_soil_map g !! Soil_Type_ID data = Some "" ∨
   reverse_crop_map g !! Crop_Type_ID data = Some "" →
   outcome (recommend_fertilizer transform predict data g) =
     Raise (HTTPException 400 "Invalid Soil Type or Crop Type ID provided.")) ∧
  (∀ x c rest,
     falsy (reverse_soil_map g !! Soil_Type_ID data) = false →
     falsy (reverse_crop_map g !! Crop_Type_ID data) = false →
     transform (scaler g) (request_row g data) = inr x →
     predict (model g) x = inr (c :: rest) →
     reverse_fertilizer_map g !! c = Some "" →
     outcome (recommend_fertilizer transform predict data g) =
       Raise (HTTPException 500 "Could not map prediction to a fertilizer name.")).
Proof.
  split.
  - intros Hempty. rewrite recommend_fertilizer_run.
    assert (falsy (reverse_soil_map g !! Soil_Type_ID data)
            || falsy (reverse_crop_map g !! Crop_Type_ID data) = true) as ->; [| done].
    destruct Hempty as [-> | ->]; [done | apply orb_true_r].
  - intros x c rest Hs Hc Ht Hp Hf.
    by rewrite recommend_fertilizer_run, Hs, Hc, Ht, Hp, Hf.
Qed.

(** C9: a request leaves the module-level state as it found it: after
    [recommend_fertilizer], and after [get_categories], the model, the
    scaler, the column list, the forward mappings and the three reverse
    mappings are the ones the request started from. *)
Theorem artifacts_unchanged data g :
  globals_after (recommend_fertilizer transform predict data g) = g ∧
  globals_after (get_categories (Scaled := Scaled) g) = g.
Proof.
  split; [apply read_only_recommend | apply read_only_get_categories].
Qed.

(** C10: a second call with the same input, run on the state the first call
    left behind, has the same outcome (the same recommendation or the same
    error) and makes the same external calls. *)
Theorem recommend_twice data g :
  let first := recommend_fertilizer transform predict data g in
  let second := recommend_fertilizer transform predict data (globals_after first) in
  outcome second = outcome first ∧ calls second = calls first.
Proof.
  intros first second. subst first second.
  by rewrite read_only_recommend.
Qed.

(** C4: when the one-hot column derived from the soil name (from the crop
    name) is not in the schema, a request that passes the name test is not
    rejected: it reaches the scaler with its row, the outcome is no 400,
    and every column of that row labelled ['Soil_Type_' + n] (resp.
    ['Crop_Type_' + n]) for some [n] holds 0. *)
Theorem absent_one_hot_column_tolerated data g s t :
  reverse_soil_map g !! Soil_Type_ID data = Some s → s ≠ "" →
  reverse_crop_map g !! Crop_Type_ID data = Some t → t ≠ "" →
  soil_col s ∉ model_columns g ∨ crop_col t ∉ model_columns g →
  (∃ rest, calls (recommend_fertilizer transform predict data g) =
           CallTransform (request_row g data) :: rest) ∧
  (∀ detail, outcome (recommend_fertilizer transform predict data g) ≠
             Raise (HTTPException 400 detail)) ∧
  (soil_col s ∉ model_columns g →
   ∀ n x, (soil_col n, x) ∈ request_row g data → x = 0) ∧
  (crop_col t ∉ model_columns g →
   ∀ n x, (crop_col n, x) ∈ request_row g data → x = 0).
Proof.
  intros Hs Hsne Ht Htne _.
  assert (Hok : falsy (reverse_soil_map g !! Soil_Type_ID data)
                || falsy (reverse_crop_map g !! Crop_Type_ID data) = false).
  { rewrite Hs, Ht. by rewrite !falsy_nonempty. }
  split; [by apply recommend_calls_transform |].
  split; [intros detail; by apply recommend_not_rejected |].
  assert (Hcols : ∀ c x, (c, x) ∈ request_row g data →
                         c ∈ numeric_names ∨ c ∈ model_columns g).
  { intros c x Hel. apply (elem_of_numeric_frame_columns _ data).
    rewrite <- request_row_columns. apply list_elem_of_fmap. by exists (c, x). }
  assert (Hcells : ∀ c x, (c, x) ∈ request_row g data → x = feature_cell data s t c).
  { intros c x. rewrite (request_row_resolved _ _ _ _ Hs Ht). apply feature_row_cells. }
  split.
  - intros Habsent n x Hel. rewrite (Hcells _ _ Hel).
    apply feature_cell_other;
      [apply soil_col_not_numeric | | apply soil_col_not_crop_col].
    intros Heq. destruct (Hcols _ _ Hel) as [Hnum | Hin].
    + by apply soil_col_not_numeric in Hnum.
    + rewrite Heq in Hin. by apply Habsent.
  - intros Habsent n x Hel. rewrite (Hcells _ _ Hel).
    apply feature_cell_other;
      [apply crop_col_not_numeric | apply not_eq_sym, soil_col_not_crop_col |].
    intros Heq. destruct (Hcols _ _ Hel) as [Hnum | Hin].
    + by apply crop_col_not_numeric in Hnum.
    + rewrite Heq in Hin. by apply Habsent.
Qed.

(** C5: for the example request, with soil id 2 mapped to "Loamy", crop id
    10 mapped to "Sugarcane" and a schema that has the columns
    Soil_Type_Loamy and Crop_Type_Sugarcane, the row handed to the scaler
    keeps every schema column, has the eight columns of the scenario, and
    holds in each column the value of the scenario: Temparature 34, Humidity
    65, Moisture 54, Nitrogen 38, Potassium 0, Phosphorous 0, Soil_Type_Loamy
    1, Crop_Type_Sugarcane 1, and 0 everywhere else. *)
Theorem example_request_row g :
  reverse_soil_map g !! 2 = Some "Loamy" →
  reverse_crop_map g !! 10 = Some "Sugarcane" →
  "Soil_Type_Loamy" ∈ model_columns g →
  "Crop_Type_Sugarcane" ∈ model_columns g →
  (∃ rest, calls (recommend_fertilizer transform predict example_input g)
           = CallTransform (request_row g example_input) :: rest) ∧
  (model_columns g) `prefix_of` (df_columns (request_row g example_input)) ∧
  (∀ c, c ∈ scenario_names → c ∈ df_columns (request_row g example_input)) ∧
  (∀ c x, (c, x) ∈ request_row g example_input → x = scenario_cell c).
Proof.
  intros Hs Ht Hsoil Hcrop.
  change 2 with (Soil_Type_ID example_input) in Hs.
  change 10 with (Crop_Type_ID example_input) in Ht.
  split; [apply recommend_calls_transform; by rewrite Hs, Ht |].
  split; [rewrite request_row_columns; apply numeric_frame_prefix |].
  split.
  - intros c Hc. rewrite request_row_columns. apply elem_of_numeric_frame_columns.
    unfold scenario_names, numeric_names in *.
    rewrite !elem_of_cons, elem_of_nil in Hc. rewrite !elem_of_cons, elem_of_nil.
    destruct Hc as [-> | [-> | [-> | [-> | [-> | [-> | [-> | [-> | []]]]]]]]]; auto 10.
  - intros c x. rewrite (request_row_resolved _ _ _ _ Hs Ht).
    intros ->%feature_row_cells.
    unfold feature_cell, numeric_field, scenario_cell.
    change (soil_col "Loamy") with "Soil_Type_Loamy".
    change (crop_col "Sugarcane") with "Crop_Type_Sugarcane".
    destruct (decide (c = "Soil_Type_Loamy")) as [-> | Hnl]; [by vm_compute |].
    destruct (decide (c = "Crop_Type_Sugarcane")) as [-> | Hns]; [by vm_compute |].
    rewrite (decide_False (P := _ ∨ _)) by (by intros [|]).
    repeat (case_decide; [subst c; by vm_compute |]).
    done.
Qed.

(** C6, amended: for every input and every schema that has the six numeric
    columns, the row of the request has exactly len(schema) entries,
    labelled by the schema's column names in the schema's order; it is the
    row handed to the scaler when the request passes the name test. *)
Theorem row_aligned_with_schema data g :
  numeric_names ⊆ model_columns g →
  df_columns (request_row g data) = model_columns g ∧
  length (request_row g data) = length (model_columns g) ∧
  (falsy (reverse_soil_map g !! Soil_Type_ID data)
   || falsy (reverse_crop_map g !! Crop_Type_ID data) = false →
   ∃ rest, calls (recommend_fertilizer transform predict data g) =
           CallTransform (request_row g data) :: rest).
Proof.
  intros Hsub.
  assert (Hcols : df_columns (request_row g data) = model_columns g).
  { rewrite request_row_columns. by apply numeric_frame_columns. }
  split; [done |]. split; [| apply recommend_calls_transform].
  rewrite <- Hcols. unfold df_columns. by rewrite length_fmap.
Qed.

(** C2, amended: for every schema that is missing one of the six numeric
    column names, start-up succeeds and the feature-row construction does
    not fail: the assignment appends the missing column after the schema's
    columns, holding the field of the input, so the frame is longer than the
    schema.  A request that passes the name test reaches the scaler with a
    row that has the appended column, and whatever fails in a request leaves
    as an [HTTPException] of status 400 or 500 for that request. *)
Theorem missing_numeric_column_appended (md : Model) (sc : Scaler) cols bm k :
  k ∈ numeric_names → k ∉ cols →
  ∃ g,
    startup {| Best_Fertilizer_Recommendation_Model_pkl := Some md;
               fertilizer_scaler_pkl := Some sc;
               fertilizer_model_columns_pkl := Some cols;
               fertilizer_backend_mappings_pkl := Some bm |} = Started g ∧
    model_columns g = cols ∧
    ∀ data,
      cols `prefix_of` (df_columns (numeric_frame cols data)) ∧
      k ∈ df_columns (numeric_frame cols data) ∧
      (length cols < length (numeric_frame cols data))%nat ∧
      (∀ x, (k, x) ∈ numeric_frame cols data → x = numeric_field data k) ∧
      (falsy (reverse_soil_map g !! Soil_Type_ID data)
       || falsy (reverse_crop_map g !! Crop_Type_ID data) = false →
       k ∈ df_columns (request_row g data) ∧
       ∃ rest, calls (recommend_fertilizer transform predict data g) =
               CallTransform (request_row g data) :: rest) ∧
      (∀ e, outcome (recommend_fertilizer transform predict data g) = Raise e →
            ∃ status detail, e = HTTPException status detail ∧
                             (status = 400 ∨ status = 500)).
Proof.
  intros Hk Hnot. eexists. split; [apply startup_present |]. split; [done |].
  intros data. cbn [model_columns reverse_soil_map reverse_crop_map].
  assert (Hin : k ∈ df_columns (numeric_frame cols data))
    by (apply elem_of_numeric_frame_columns; by left).
  split; [apply numeric_frame_prefix |]. split; [done |].
  split; [| split; [| split]].
  - destruct (numeric_frame_prefix cols data) as [extra Hextra].
    unfold df_columns in *. rewrite <- (length_fmap fst), Hextra, length_app.
    destruct extra as [| c extra]; [| cbn [length]; lia].
    rewrite app_nil_r in Hextra. by rewrite Hextra in Hin.
  - intros x. apply numeric_frame_cells.
  - intros Hok. split; [| by apply recommend_calls_transform].
    by rewrite request_row_columns.
  - intros e. apply recommend_raises_http.
Qed.

(** C3, amended: for every forward mapping in which two names share a code
    within one domain, the construction of the reverse mapping does not
    fail: start-up succeeds, and the reverse mapping sends the shared code
    to the name of the last entry of the forward mapping that carries it,
    so that another name of that code is no longer reached. *)
Theorem colliding_codes_last_wins (md : Model) (sc : Scaler) cols bm d c n1 n2 :
  n1 ≠ n2 → (n1, c) ∈ forward d bm → (n2, c) ∈ forward d bm →
  ∃ g n lost,
    startup {| Best_Fertilizer_Recommendation_Model_pkl := Some md;
               fertilizer_scaler_pkl := Some sc;
               fertilizer_model_columns_pkl := Some cols;
               fertilizer_backend_mappings_pkl := Some bm |} = Started g ∧
    reverse d g !! c = Some n ∧
    last (carrying c (forward d bm)) = Some (n, c) ∧
    (lost, c) ∈ forward d bm ∧ lost ≠ n.
Proof.
  intros Hne H1 H2.
  destruct (last (carrying c (forward d bm))) as [[n c'] |] eqn:Hlast.
  - assert (c' = c) as ->.
    { apply last_Some_elem_of, list_elem_of_filter in Hlast. by destruct Hlast. }
    assert (reverse_map (forward d bm) !! c = Some n) as Hrev
      by (by rewrite reverse_map_lookup, Hlast).
    assert (∃ lost, (lost, c) ∈ forward d bm ∧ lost ≠ n) as (lost & Hlost & Hdiff).
    { destruct (decide (n1 = n)) as [<- |]; [exists n2 | exists n1]; split; congruence. }
    eexists _, n, lost. split; [apply startup_present |].
    repeat split; try done. by destruct d.
  - apply last_None in Hlast.
    assert (Hin : (n1, c) ∈ carrying c (forward d bm))
      by (by apply list_elem_of_filter).
    rewrite Hlast in Hin. by apply elem_of_nil in Hin.
Qed.

(** C7, amended: on a started process, for every input whose Soil_Type_ID
    and Crop_Type_ID each have a reverse mapping, a response of recommend
    carries a non-empty fertilizer name that is a name of the fertilizer
    mapping; a failure is an [HTTPException], of status 400 only when one of
    the two mapped names is the empty string, and of status 500 otherwise.
    The response is given whenever both names are non-empty, the scaler and
    the classifier answer, and the first predicted class has a non-empty
    name in the reverse fertilizer mapping; it then carries that name. *)
Theorem recommended_name_is_known fs data g :
  startup fs = Started g →
  is_Some (reverse_soil_map g !! Soil_Type_ID data) →
  is_Some (reverse_crop_map g !! Crop_Type_ID data) →
  (∀ rec, outcome (recommend_fertilizer transform predict data g) = Return rec →
     ∃ n, recommended_fertilizer rec = Some n ∧ n ≠ "" ∧
          n ∈ (fertilizer_map (backend_mappings g)).*1) ∧
  (∀ e, outcome (recommend_fertilizer transform predict data g) = Raise e →
     ∃ status detail, e = HTTPException status detail ∧
       (status = 400 ∧ (reverse_soil_map g !! Soil_Type_ID data = Some "" ∨
                        reverse_crop_map g !! Crop_Type_ID data = Some "")
        ∨ status = 500)) ∧
  (∀ s t x c rest n,
     reverse_soil_map g !! Soil_Type_ID data = Some s → s ≠ "" →
     reverse_crop_map g !! Crop_Type_ID data = Some t → t ≠ "" →
     transform (scaler g) (request_row g data) = inr x →
     predict (model g) x = inr (c :: rest) →
     reverse_fertilizer_map g !! c = Some n → n ≠ "" →
     outcome (recommend_fertilizer transform predict data g) =
       Return {| recommended_fertilizer := Some n |}).
Proof.
  intros Hstart [s Hs] [t Ht].
  apply startup_Started in Hstart as (_ & _ & _ & _ & Hrev).
  split; [| split].
  - intros rec (_ & x & c & rest & n & _ & _ & Hn & Hne & ->)%recommend_returns.
    exists n. split; [done |]. split; [done |].
    rewrite Hrev in Hn. apply reverse_map_elem_of in Hn.
    apply list_elem_of_fmap. by exists (n, c).
  - intros e He.
    destruct (recommend_raises_http _ _ _ _ _ He) as (status & detail & -> & [-> | ->]);
      [exists 400, detail | exists 500, detail]; (split; [done |]); [left | by right].
    split; [done |].
    destruct (falsy (reverse_soil_map g !! Soil_Type_ID data)
              || falsy (reverse_crop_map g !! Crop_Type_ID data)) eqn:Hf.
    + rewrite Hs, Ht in Hf. cbn [falsy] in Hf.
      apply orb_true_iff in Hf as [Hf%bool_decide_eq_true | Hf%bool_decide_eq_true];
        subst; auto.
    + by apply (recommend_not_rejected transform predict _ _ detail) in Hf.
  - intros s' t' x c rest n Hs' Hsne Ht' Htne Hx Hp Hn Hne.
    apply recommend_returns. rewrite Hs', Ht', !falsy_nonempty by done.
    split; [done |]. by exists x, c, rest, n.
Qed.

End Claims.

(** ** The claims on the small deployment *)

Lemma unknown_category_rejected_demo :
  outcome (Demo.demo_recommend (Demo.with_soil 999 example_input) Demo.demo_globals) =
    Raise (HTTPException 400 "Invalid Soil Type or Crop Type ID provided.") ∧
  calls (Demo.demo_recommend (Demo.with_soil 999 example_input) Demo.demo_globals) = [].
Proof.
  apply (unknown_category_rejected Demo.demo_transform Demo.demo_predict).
  left. vm_compute. reflexivity.
Defined.

Lemma empty_name_is_falsy_demo :
  outcome (Demo.demo_recommend (Demo.with_soil 0 example_input) Demo.nameless_globals) =
    Raise (HTTPException 400 "Invalid Soil Type or Crop Type ID provided.") ∧
  outcome (Demo.demo_recommend (Demo.with_crop 3 example_input) Demo.nameless_globals) =
    Raise (HTTPException 400 "Invalid Soil Type or Crop Type ID provided.") ∧
  outcome (Demo.demo_recommend example_input Demo.nameless_globals) =
    Raise (HTTPException 500 "Could not map prediction to a fertilizer name.").
Proof.
  split; [| split].
  - apply (empty_name_is_falsy Demo.demo_transform Demo.demo_predict).
    left. vm_compute. reflexivity.
  - apply (empty_name_is_falsy Demo.demo_transform Demo.demo_predict).
    right. vm_compute. reflexivity.
  - eapply (proj2 (empty_name_is_falsy Demo.demo_transform Demo.demo_predict
                     example_input Demo.nameless_globals));
      vm_compute; reflexivity.
Defined.

Lemma absent_one_hot_column_tolerated_demo :
  (∃ rest, calls (Demo.demo_recommend (Demo.with_soil 0 example_input) Demo.demo_globals) =
           CallTransform (request_row Demo.demo_globals (Demo.with_soil 0 example_input))
           :: rest) ∧
  ∀ n x, (soil_col n, x) ∈ request_row Demo.demo_globals (Demo.with_soil 0 example_input) →
         x = 0.
Proof.
  assert (Hsoil : soil_col "Black" ∉ model_columns Demo.demo_globals).
  { apply (bool_decide_unpack _). by vm_compute. }
  destruct (absent_one_hot_column_tolerated Demo.demo_transform Demo.demo_predict
              (Demo.with_soil 0 example_input) Demo.demo_globals "Black" "Sugarcane")
    as (Hcalls & _ & Hzero & _).
  - by vm_compute.
  - done.
  - by vm_compute.
  - done.
  - by left.
  - split; [exact Hcalls | exact (Hzero Hsoil)].
Defined.

Lemma example_request_row_demo :
  (∃ rest, calls (Demo.demo_recommend example_input Demo.demo_globals) =
           CallTransform (request_row Demo.demo_globals example_input) :: rest) ∧
  (model_columns Demo.demo_globals)
    `prefix_of` (df_columns (request_row Demo.demo_globals example_input)) ∧
  (∀ c, c ∈ scenario_names → c ∈ df_columns (request_row Demo.demo_globals example_input)) ∧
  (∀ c x, (c, x) ∈ request_row Demo.demo_globals example_input → x = scenario_cell c).
Proof.
  apply (example_request_row Demo.demo_transform Demo.demo_predict Demo.demo_globals).
  - by vm_compute.
  - by vm_compute.
  - apply (bool_decide_unpack _). by vm_compute.
  - apply (bool_decide_unpack _). by vm_compute.
Defined.

Lemma row_aligned_with_schema_demo :
  df_columns (request_row Demo.demo_globals example_input) = Demo.demo_columns ∧
  length (request_row Demo.demo_globals example_input) = 10%nat.
Proof.
  destruct (row_aligned_with_schema Demo.demo_transform Demo.demo_predict
              example_input Demo.demo_globals) as (Hcols & Hlen & _).
  - apply (bool_decide_unpack _). by vm_compute.
  - split; [exact Hcols | exact Hlen].
Defined.

Lemma missing_numeric_column_appended_demo :
  ∃ g, startup Demo.drifted_files = Started g ∧ model_columns g = Demo.drifted_columns.
Proof.
  destruct (missing_numeric_column_appended Demo.demo_transform Demo.demo_predict
              {| Demo.constant := 1 |} {| Demo.mean_ := [60; 40; 20; 5; 5; 0; 0; 0; 0; 30] |}
              Demo.drifted_columns Demo.demo_mappings "Temparature")
    as (g & Hstart & Hcols & _).
  - apply (bool_decide_unpack _). by vm_compute.
  - apply (bool_decide_unpack _). by vm_compute.
  - exists g. split; [exact Hstart | exact Hcols].
Defined.

Lemma colliding_codes_last_wins_demo :
  ∃ g n lost, startup Demo.colliding_files = Started g ∧
    reverse Soil g !! 2 = Some n ∧
    last (carrying 2 (forward Soil Demo.colliding_mappings)) = Some (n, 2) ∧
    (lost, 2) ∈ forward Soil Demo.colliding_mappings ∧ lost ≠ n.
Proof.
  apply (colliding_codes_last_wins
           {| Demo.constant := 1 |} {| Demo.mean_ := [30; 60; 40; 20; 5; 5; 0; 0; 0; 0] |}
           Demo.demo_columns Demo.colliding_mappings Soil 2 "Loamy" "Sandy").
  - done.
  - apply (bool_decide_unpack _). by vm_compute.
  - apply (bool_decide_unpack _). by vm_compute.
Defined.

Lemma recommended_name_is_known_demo :
  outcome (Demo.demo_recommend example_input Demo.demo_globals) =
    Return {| recommended_fertilizer := Some "Urea" |} ∧
  ∃ n, Some "Urea" = Some n ∧ n ≠ "" ∧
       n ∈ (fertilizer_map (backend_mappings Demo.demo_globals)).*1.
Proof.
  destruct (recommended_name_is_known Demo.demo_transform Demo.demo_predict
              Demo.demo_files example_input Demo.demo_globals)
    as (Hknown & _ & Hreturns).
  - reflexivity.
  - exists "Loamy". by vm_compute.
  - exists "Sugarcane". by vm_compute.
  - assert (Hout : outcome (Demo.demo_recommend example_input Demo.demo_globals) =
                   Return {| recommended_fertilizer := Some "Urea" |}).
    { eapply (Hreturns "Loamy" "Sugarcane"); try done; by vm_compute. }
    split; [exact Hout | exact (Hknown _ Hout)].
Defined.

(** ** Where the specification and the code part *)

(** C2: with a column list that lacks "Temparature" the import succeeds and
    the example request is served: the assignment appended the column, the
    scaler and the classifier were called, and "Urea" was recommended. *)
Lemma drifted_schema_is_served :
  ("Temparature" ∉ Demo.drifted_columns) ∧
  startup Demo.drifted_files = Started Demo.drifted_globals ∧
  Demo.demo_recommend example_input Demo.drifted_globals =
    MkRan (Return {| recommended_fertilizer := Some "Urea" |}) Demo.drifted_globals
      [CallTransform
         [("Humidity", 65); ("Moisture", 54); ("Nitrogen", 38); ("Potassium", 0);
          ("Phosphorous", 0); ("Soil_Type_Loamy", 1); ("Soil_Type_Sandy", 0);
          ("Crop_Type_Maize", 0); ("Crop_Type_Sugarcane", 1); ("Temparature", 34)];
       CallPredict [5; 14; 18; -5; -5; 1; 0; 0; 1; 4]].
Proof.
  split; [apply (bool_decide_unpack _); by vm_compute |].
  split; [reflexivity | by vm_compute].
Qed.

(** C3: a soil mapping that gives code 2 to "Loamy" and to "Sandy" is
    inverted without any error: the import succeeds and code 2 reads
    "Sandy". *)
Lemma colliding_mapping_is_loaded :
  ("Loamy", 2) ∈ soil_type_map Demo.colliding_mappings ∧
  ("Sandy", 2) ∈ soil_type_map Demo.colliding_mappings ∧
  ∃ g, startup Demo.colliding_files = Started g ∧
       reverse_soil_map g !! 2 = Some "Sandy".
Proof.
  split; [apply (bool_decide_unpack _); by vm_compute |].
  split; [apply (bool_decide_unpack _); by vm_compute |].
  eexists. split; [reflexivity | by vm_compute].
Qed.

(** C6: with a column list of nine names that lacks "Temparature", the row
    of the example request has ten entries, and its labels are not the
    schema. *)
Lemma drifted_row_is_wider :
  length (model_columns Demo.drifted_globals) = 9%nat ∧
  length (request_row Demo.drifted_globals example_input) = 10%nat ∧
  df_columns (request_row Demo.drifted_globals example_input) ≠
    model_columns Demo.drifted_globals ∧
  head (calls (Demo.demo_recommend example_input Demo.drifted_globals)) =
    Some (CallTransform (request_row Demo.drifted_globals example_input)).
Proof.
  split; [reflexivity |]. split; [by vm_compute |].
  split; [| by vm_compute].
  intros Heq. apply (f_equal length) in Heq. vm_compute in Heq. discriminate Heq.
Qed.

(** C7: both ids of the example request have a reverse mapping, yet the
    request fails when the classifier answers class 7, which has no entry in
    the reverse fertilizer mapping. *)
Lemma unmapped_class_fails :
  startup Demo.unmapped_files = Started Demo.unmapped_globals ∧
  reverse_soil_map Demo.unmapped_globals !! Soil_Type_ID example_input = Some "Loamy" ∧
  reverse_crop_map Demo.unmapped_globals !! Crop_Type_ID example_input = Some "Sugarcane" ∧
  outcome (Demo.demo_recommend example_input Demo.unmapped_globals) =
    Raise (HTTPException 500 "Could not map prediction to a fertilizer name.").
Proof.
  split; [reflexivity |]. repeat split; by vm_compute.
Qed.

(** * Further properties of the service *)

(** ** Auxiliary facts *)

Section MoreFrames.

Implicit Types (df : DataFrame) (cols ks : list string) (k c : string) (v : Z).

(** One more assignment, seen on the labels: the schema first, then the
    assigned labels it lacks, in order. *)
Lemma setitem_columns_step df cols ks k v :
  df_columns df = cols ++ filter (λ c, c ∉ cols) ks → k ∉ ks →
  df_columns (setitem df k v) = cols ++ filter (λ c, c ∉ cols) (ks ++ [k]).
Proof.
  intros Hdf Hk. rewrite df_columns_setitem, Hdf, filter_app, filter_cons, filter_nil.
  destruct (decide (k ∈ cols)) as [Hin | Hout].
  - rewrite decide_True by (apply elem_of_app; by left).
    rewrite (decide_False (P := k ∉ cols)) by tauto. by rewrite app_nil_r.
  - rewrite decide_False.
    + rewrite (decide_True (P := k ∉ cols)) by done. by rewrite app_assoc.
    + rewrite elem_of_app, list_elem_of_filter. tauto.
Qed.

Lemma numeric_frame_columns_exact cols data :
  df_columns (numeric_frame cols data) = cols ++ missing_numeric cols.
Proof.
  unfold numeric_frame, missing_numeric, numeric_names.
  apply (setitem_columns_step _ cols
           ["Temparature"; "Humidity"; "Moisture"; "Nitrogen"; "Potassium"]);
    [| apply (bool_decide_unpack _); by vm_compute].
  apply (setitem_columns_step _ cols ["Temparature"; "Humidity"; "Moisture"; "Nitrogen"]);
    [| apply (bool_decide_unpack _); by vm_compute].
  apply (setitem_columns_step _ cols ["Temparature"; "Humidity"; "Moisture"]);
    [| apply (bool_decide_unpack _); by vm_compute].
  apply (setitem_columns_step _ cols ["Temparature"; "Humidity"]);
    [| apply (bool_decide_unpack _); by vm_compute].
  apply (setitem_columns_step _ cols ["Temparature"]);
    [| apply (bool_decide_unpack _); by vm_compute].
  apply (setitem_columns_step _ cols []); [| apply not_elem_of_nil].
  rewrite df_columns_zeros, filter_nil. by rewrite app_nil_r.
Qed.

Lemma soil_col_inj s s' : soil_col s = soil_col s' → s = s'.
Proof. unfold soil_col. intros [= H]. exact H. Qed.

Lemma crop_col_inj t t' : crop_col t = crop_col t' → t = t'.
Proof. unfold crop_col. intros [= H]. exact H. Qed.

(** A label of the frame has a cell. *)
Lemma column_has_cell df c : c ∈ df_columns df → ∃ x, (c, x) ∈ df.
Proof.
  unfold df_columns. intros [[c' x] [-> Hel]]%list_elem_of_fmap. by exists x.
Qed.

End MoreFrames.

Section MoreReverseMaps.

Implicit Types (m : CategoryMapping) (c : Z) (n : string).

Lemma reverse_map_codes m c : is_Some (reverse_map m !! c) ↔ c ∈ m.*2.
Proof.
  split.
  - intros [n Hn]. apply reverse_map_elem_of in Hn.
    apply list_elem_of_fmap. by exists (n, c).
  - intros [[n c'] [-> Hel]]%list_elem_of_fmap. by eapply reverse_map_is_Some.
Qed.

Lemma distinct_codes_one_name m c n n' :
  NoDup m.*2 → (n, c) ∈ m → (n', c) ∈ m → n = n'.
Proof.
  induction m as [| [k v] m IH]; intros Hnodup H1 H2; [by apply elem_of_nil in H1 |].
  rewrite fmap_cons in Hnodup. apply NoDup_cons in Hnodup as [Hv Hnodup].
  assert (Hcode : ∀ n0, (n0, c) ∈ m → c ∈ m.*2).
  { intros n0 H0. apply list_elem_of_fmap. by exists (n0, c). }
  cbn [snd] in Hv.
  apply elem_of_cons in H1 as [H1 | H1]; apply elem_of_cons in H2 as [H2 | H2];
    simplify_eq.
  - done.
  - destruct Hv. by eapply Hcode.
  - destruct Hv. by eapply Hcode.
  - by apply IH.
Qed.

(** With pairwise distinct codes the comprehension inverts the mapping. *)
Lemma reverse_map_inverse m c n :
  NoDup m.*2 → (reverse_map m !! c = Some n ↔ (n, c) ∈ m).
Proof.
  intros Hnodup. split; [apply reverse_map_elem_of |].
  intros Hel. destruct (reverse_map_is_Some _ _ _ Hel) as [n' Hn']. rewrite Hn'.
  apply reverse_map_elem_of in Hn'. f_equal. by eapply distinct_codes_one_name.
Qed.

Lemma dom_reverse_map m : dom (reverse_map m) = list_to_set m.*2.
Proof.
  induction m as [| [n c] m IH] using rev_ind.
  { change (reverse_map []) with (∅ : gmap Z string). by rewrite dom_empty_L. }
  rewrite reverse_map_snoc, dom_insert_L, IH, fmap_app, list_to_set_app_L.
  cbn [fmap list_fmap snd list_to_set]. set_solver.
Qed.

Lemma size_list_to_set_le (l : list Z) :
  (size (list_to_set l : gset Z) ≤ length l)%nat.
Proof.
  induction l as [| x l IH]; [by rewrite list_to_set_nil, size_empty |].
  rewrite list_to_set_cons, size_union_alt, size_singleton. cbn [length].
  assert (size (list_to_set l ∖ {[x]} : gset Z) ≤ size (list_to_set l : gset Z))%nat
    by (apply subseteq_size; set_solver).
  lia.
Qed.

Lemma size_list_to_set_NoDup (l : list Z) :
  size (list_to_set l : gset Z) = length l ↔ NoDup l.
Proof.
  split; [| apply size_list_to_set].
  induction l as [| x l IH]; [constructor |].
  intros Hsize. apply NoDup_cons.
  pose proof (size_list_to_set_le l) as Hle.
  destruct (decide (x ∈ l)) as [Hin | Hout].
  - exfalso. rewrite list_to_set_cons in Hsize.
    assert (({[x]} ∪ list_to_set l : gset Z) = list_to_set l) as Heq by set_solver.
    rewrite Heq in Hsize. cbn [length] in Hsize. lia.
  - split; [done |]. apply IH.
    rewrite list_to_set_cons, size_union, size_singleton in Hsize by set_solver.
    cbn [length] in Hsize. lia.
Qed.

End MoreReverseMaps.

Section MoreRuns.

Context {Model Scaler Scaled : Type}.
Variable transform : Scaler → DataFrame → string + Scaled.
Variable predict : Model → Scaled → string + list Z.

Implicit Types (g : @Globals Model Scaler) (data : FertilizerInput).

Lemma falsy_true o : falsy o = true ↔ o = None ∨ o = Some "".
Proof.
  destruct o as [s |]; cbn [falsy].
  - rewrite bool_decide_eq_true. split; [intros ->; by right | by intros [| [= ->]]].
  - split; [by left | done].
Qed.

(** The run of [get_categories]. *)
Lemma get_categories_run g :
  get_categories (Scaled := Scaled) g =
  MkRan (Return {| soil_types := entries (soil_type_map (backend_mappings g));
                   crop_types := entries (crop_type_map (backend_mappings g)) |}) g [].
Proof. reflexivity. Qed.

Lemma entries_pairs (m : CategoryMapping) : (λ e, (name e, id e)) <$> entries m = m.
Proof.
  unfold entries. rewrite <- list_fmap_compose.
  rewrite (list_fmap_ext _ (λ kv, kv) m) by (by intros ? []). apply list_fmap_id.
Qed.

Lemma entries_ids (m : CategoryMapping) : id <$> entries m = m.*2.
Proof. unfold entries. by rewrite <- list_fmap_compose. Qed.

Lemma elem_of_entries (m : CategoryMapping) e : e ∈ entries m ↔ (name e, id e) ∈ m.
Proof.
  unfold entries. rewrite list_elem_of_fmap. split.
  - by intros [[n c] [-> Hel]].
  - intros Hel. exists (name e, id e). by destruct e.
Qed.

(** Without its soil column the frame is left to the crop assignment alone. *)
Lemma one_hot_absent_soil (df : DataFrame) s t :
  soil_col s ∉ df_columns df →
  one_hot df (Some s) (Some t) =
  if decide (crop_col t ∈ df_columns df) then setitem df (crop_col t) 1 else df.
Proof.
  intros Habsent. unfold one_hot. cbv zeta. unfold fmt.
  change ("Soil_Type_" +:+ s) with (soil_col s).
  change ("Crop_Type_" +:+ t) with (crop_col t).
  by rewrite (decide_False (P := soil_col s ∈ df_columns df)) by done.
Qed.

Lemma soil_col_not_in_numeric_frame cols data s :
  soil_col s ∉ cols → soil_col s ∉ df_columns (numeric_frame cols data).
Proof.
  intros Habsent [Hnum | Hin]%elem_of_numeric_frame_columns; [| done].
  by apply soil_col_not_numeric in Hnum.
Qed.

Lemma request_row_cells data g s t c x :
  reverse_soil_map g !! Soil_Type_ID data = Some s →
  reverse_crop_map g !! Crop_Type_ID data = Some t →
  (c, x) ∈ request_row g data → x = feature_cell data s t c.
Proof.
  intros Hs Ht. rewrite (request_row_resolved _ _ _ _ Hs Ht). apply feature_row_cells.
Qed.

Lemma names_pass data g s t :
  reverse_soil_map g !! Soil_Type_ID data = Some s → s ≠ "" →
  reverse_crop_map g !! Crop_Type_ID data = Some t → t ≠ "" →
  falsy (reverse_soil_map g !! Soil_Type_ID data)
  || falsy (reverse_crop_map g !! Crop_Type_ID data) = false.
Proof. intros -> Hs -> Ht. by rewrite !falsy_nonempty. Qed.

End MoreRuns.

(** ** The row handed to the scaler *)

Section Coverage.

Context {Model Scaler Scaled : Type}.
Variable transform : Scaler → DataFrame → string + Scaled.
Variable predict : Model → Scaled → string + list Z.

Implicit Types (g : @Globals Model Scaler) (data : FertilizerInput).
Implicit Types (fs : @Files Model Scaler).

(** X1: the labels of the row of a request are the schema's columns in the
    schema's order, followed by the numeric labels the schema lacks, in the
    order Temparature, Humidity, Moisture, Nitrogen, Potassium,
    Phosphorous. *)
Theorem row_labels data g :
  df_columns (request_row g data) = model_columns g ++ missing_numeric (model_columns g).
Proof. rewrite request_row_columns. apply numeric_frame_columns_exact. Qed.

(** X2: when a request passes the name test, the row handed to the scaler
    has a column for each of the six numeric labels, and every column with
    such a label holds the like-named field of the input: the one-hot
    assignments never overwrite a measurement. *)
Theorem numeric_fields_reach_scaler data g :
  falsy (reverse_soil_map g !! Soil_Type_ID data)
  || falsy (reverse_crop_map g !! Crop_Type_ID data) = false →
  (∃ rest, calls (recommend_fertilizer transform predict data g) =
           CallTransform (request_row g data) :: rest) ∧
  (∀ k, k ∈ numeric_names → k ∈ df_columns (request_row g data)) ∧
  (∀ x, ("Temparature", x) ∈ request_row g data → x = Temparature data) ∧
  (∀ x, ("Humidity", x) ∈ request_row g data → x = Humidity data) ∧
  (∀ x, ("Moisture", x) ∈ request_row g data → x = Moisture data) ∧
  (∀ x, ("Nitrogen", x) ∈ request_row g data → x = Nitrogen data) ∧
  (∀ x, ("Potassium", x) ∈ request_row g data → x = Potassium data) ∧
  (∀ x, ("Phosphorous", x) ∈ request_row g data → x = Phosphorous data).
Proof.
  intros Hok. split; [by apply recommend_calls_transform |].
  split.
  { intros k Hk. rewrite request_row_columns. apply elem_of_numeric_frame_columns.
    by left. }
  apply orb_false_iff in Hok as [(s & Hs & _)%falsy_false (t & Ht & _)%falsy_false].
  assert (Hcell : ∀ k x, k ∈ numeric_names → (k, x) ∈ request_row g data →
                         x = numeric_field data k).
  { intros k x Hk Hel. rewrite (request_row_cells _ _ _ _ _ _ Hs Ht Hel).
    by apply feature_cell_numeric. }
  repeat split; intros x Hel;
    (apply Hcell in Hel; [| apply (bool_decide_unpack _); by vm_compute]);
    rewrite Hel; by vm_compute.
Qed.

(** X3: when a request passes the name test, the row handed to the scaler is
    one-hot in each category: a column labelled with the soil (crop) name of
    the request holds 1, at least one such column exists when the schema has
    that label, and a column labelled with any other soil (crop) name
    holds 0. *)
Theorem one_hot_indicator data g s t :
  reverse_soil_map g !! Soil_Type_ID data = Some s → s ≠ "" →
  reverse_crop_map g !! Crop_Type_ID data = Some t → t ≠ "" →
  (∃ rest, calls (recommend_fertilizer transform predict data g) =
           CallTransform (request_row g data) :: rest) ∧
  (soil_col s ∈ model_columns g → ∃ x, (soil_col s, x) ∈ request_row g data) ∧
  (∀ x, (soil_col s, x) ∈ request_row g data → x = 1) ∧
  (∀ n x, n ≠ s → (soil_col n, x) ∈ request_row g data → x = 0) ∧
  (crop_col t ∈ model_columns g → ∃ x, (crop_col t, x) ∈ request_row g data) ∧
  (∀ x, (crop_col t, x) ∈ request_row g data → x = 1) ∧
  (∀ n x, n ≠ t → (crop_col n, x) ∈ request_row g data → x = 0).
Proof.
  intros Hs Hsne Ht Htne.
  split; [apply recommend_calls_transform; by eapply names_pass |].
  assert (Hpresent : ∀ c, c ∈ model_columns g → ∃ x, (c, x) ∈ request_row g data).
  { intros c Hc. apply column_has_cell. rewrite row_labels. apply elem_of_app. by left. }
  repeat split.
  - apply Hpresent.
  - intros x Hel. rewrite (request_row_cells _ _ _ _ _ _ Hs Ht Hel).
    apply feature_cell_soil.
  - intros n x Hne Hel. rewrite (request_row_cells _ _ _ _ _ _ Hs Ht Hel).
    apply feature_cell_other;
      [apply soil_col_not_numeric | | apply soil_col_not_crop_col].
    by intros ?%soil_col_inj.
  - apply Hpresent.
  - intros x Hel. rewrite (request_row_cells _ _ _ _ _ _ Hs Ht Hel).
    apply feature_cell_crop.
  - intros n x Hne Hel. rewrite (request_row_cells _ _ _ _ _ _ Hs Ht Hel).
    apply feature_cell_other;
      [apply crop_col_not_numeric | apply not_eq_sym, soil_col_not_crop_col |].
    by intros ?%crop_col_inj.
Qed.

(** X4: when a request passes the name test, every column of the row handed
    to the scaler whose label is neither one of the six numeric labels nor
    the soil or crop label of the request holds 0. *)
Theorem other_columns_are_zero data g s t :
  reverse_soil_map g !! Soil_Type_ID data = Some s → s ≠ "" →
  reverse_crop_map g !! Crop_Type_ID data = Some t → t ≠ "" →
  (∃ rest, calls (recommend_fertilizer transform predict data g) =
           CallTransform (request_row g data) :: rest) ∧
  (∀ c x, (c, x) ∈ request_row g data →
          c ∉ numeric_names → c ≠ soil_col s → c ≠ crop_col t → x = 0).
Proof.
  intros Hs Hsne Ht Htne.
  split; [apply recommend_calls_transform; by eapply names_pass |].
  intros c x Hel Hnum Hsoil Hcrop. rewrite (request_row_cells _ _ _ _ _ _ Hs Ht Hel).
  by apply feature_cell_other.
Qed.

(** X5: two requests that agree on the six measurements and on the crop, and
    whose soil names both lack a one-hot column in the schema, are handed to
    the scaler as the same row, and get the same outcome after the same
    external calls. *)
Theorem absent_soils_are_indistinguishable data1 data2 g s1 s2 t :
  reverse_soil_map g !! Soil_Type_ID data1 = Some s1 → s1 ≠ "" →
  reverse_soil_map g !! Soil_Type_ID data2 = Some s2 → s2 ≠ "" →
  reverse_crop_map g !! Crop_Type_ID data1 = Some t → t ≠ "" →
  Crop_Type_ID data2 = Crop_Type_ID data1 →
  Temparature data2 = Temparature data1 → Humidity data2 = Humidity data1 →
  Moisture data2 = Moisture data1 → Nitrogen data2 = Nitrogen data1 →
  Potassium data2 = Potassium data1 → Phosphorous data2 = Phosphorous data1 →
  soil_col s1 ∉ model_columns g → soil_col s2 ∉ model_columns g →
  request_row g data1 = request_row g data2 ∧
  outcome (recommend_fertilizer transform predict data1 g) =
    outcome (recommend_fertilizer transform predict data2 g) ∧
  calls (recommend_fertilizer transform predict data1 g) =
    calls (recommend_fertilizer transform predict data2 g).
Proof.
  intros Hs1 Hne1 Hs2 Hne2 Ht Htne Hcrop HT HH HM HN HK HP Habs1 Habs2.
  assert (Ht2 : reverse_crop_map g !! Crop_Type_ID data2 = Some t) by (by rewrite Hcrop).
  assert (Hframe : numeric_frame (model_columns g) data2 = numeric_frame (model_columns g) data1).
  { unfold numeric_frame. by rewrite HT, HH, HM, HN, HK, HP. }
  assert (Hrow : request_row g data1 = request_row g data2).
  { rewrite (request_row_resolved _ _ _ _ Hs1 Ht), (request_row_resolved _ _ _ _ Hs2 Ht2).
    rewrite !feature_row_eq, Hframe.
    rewrite !one_hot_absent_soil by (by apply soil_col_not_in_numeric_frame).
    done. }
  split; [done |].
  rewrite !recommend_fertilizer_run, <- Hrow.
  rewrite (names_pass _ _ _ _ Hs1 Hne1 Ht Htne), (names_pass _ _ _ _ Hs2 Hne2 Ht2 Htne).
  done.
Qed.

(** ** Outcomes and external calls *)

(** X6: a request is answered with status 400 exactly when the reverse soil
    or the reverse crop mapping has no entry for its id, or maps it to the
    empty string. *)
Theorem rejected_iff_name_is_falsy data g :
  (∃ detail, outcome (recommend_fertilizer transform predict data g) =
             Raise (HTTPException 400 detail)) ↔
  reverse_soil_map g !! Soil_Type_ID data = None ∨
  reverse_soil_map g !! Soil_Type_ID data = Some "" ∨
  reverse_crop_map g !! Crop_Type_ID data = None ∨
  reverse_crop_map g !! Crop_Type_ID data = Some "".
Proof.
  split.
  - intros [detail Hout].
    destruct (falsy (reverse_soil_map g !! Soil_Type_ID data)) eqn:Hfs.
    { apply falsy_true in Hfs as [|]; auto. }
    destruct (falsy (reverse_crop_map g !! Crop_Type_ID data)) eqn:Hfc.
    { apply falsy_true in Hfc as [|]; auto. }
    destruct (recommend_not_rejected transform predict data g detail); [| done].
    by rewrite Hfs, Hfc.
  - intros Hf.
    assert (falsy (reverse_soil_map g !! Soil_Type_ID data)
            || falsy (reverse_crop_map g !! Crop_Type_ID data) = true) as Hor.
    { apply orb_true_iff.
      destruct Hf as [Hf | [Hf | [Hf | Hf]]]; [left | left | right | right];
        apply falsy_true; auto. }
    rewrite recommend_fertilizer_run, Hor. by eexists.
Qed.


(** X8: past the name test, a failure of the external objects is answered
    with status 500 and carries the message of the exception: when
    [scaler.transform] raises, [model.predict] is not called; when
    [model.predict] raises, or returns an empty array, the answer is the 500
    as well. *)
Theorem external_failure_is_500 data g :
  falsy (reverse_soil_map g !! Soil_Type_ID data)
  || falsy (reverse_crop_map g !! Crop_Type_ID data) = false →
  (∀ msg, transform (scaler g) (request_row g data) = inl msg →
     outcome (recommend_fertilizer transform predict data g) =
       Raise (HTTPException 500 ("An internal server error occurred: " +:+ msg)) ∧
     calls (recommend_fertilizer transform predict data g) =
       [CallTransform (request_row g data)]) ∧
  (∀ x msg, transform (scaler g) (request_row g data) = inr x →
     predict (model g) x = inl msg →
     outcome (recommend_fertilizer transform predict data g) =
       Raise (HTTPException 500 ("An internal server error occurred: " +:+ msg))) ∧
  (∀ x, transform (scaler g) (request_row g data) = inr x →
     predict (model g) x = inr [] →
     outcome (recommend_fertilizer transform predict data g) =
       Raise (HTTPException 500
                ("An internal server error occurred: "
                 +:+ "index 0 is out of bounds for axis 0 with size 0"))).
Proof.
  intros Hok. split; [| split].
  - intros msg Ht. by rewrite recommend_fertilizer_run, Hok, Ht.
  - intros x msg Ht Hp. by rewrite recommend_fertilizer_run, Hok, Ht, Hp.
  - intros x Ht Hp. by rewrite recommend_fertilizer_run, Hok, Ht, Hp.
Qed.

(** X9: on a started process whose fertilizer codes are pairwise distinct,
    when the request passes the name test and the scaler and the classifier
    answer, the first predicted class decides the answer: a class that the
    fertilizer mapping gives to a non-empty name is answered with that name,
    and a class that is no code of the fertilizer mapping is answered with
    the 500 "Could not map prediction to a fertilizer name.". *)
Theorem prediction_decoded fs data g x c rest :
  startup fs = Started g →
  NoDup (fertilizer_map (backend_mappings g)).*2 →
  falsy (reverse_soil_map g !! Soil_Type_ID data)
  || falsy (reverse_crop_map g !! Crop_Type_ID data) = false →
  transform (scaler g) (request_row g data) = inr x →
  predict (model g) x = inr (c :: rest) →
  (∀ n, (n, c) ∈ fertilizer_map (backend_mappings g) → n ≠ "" →
     outcome (recommend_fertilizer transform predict data g) =
       Return {| recommended_fertilizer := Some n |}) ∧
  (c ∉ (fertilizer_map (backend_mappings g)).*2 →
     outcome (recommend_fertilizer transform predict data g) =
       Raise (HTTPException 500 "Could not map prediction to a fertilizer name.")).
Proof.
  intros Hstart Hnodup Hok Ht Hp.
  apply startup_Started in Hstart as (_ & _ & _ & _ & Hrev).
  rewrite recommend_fertilizer_run, Hok, Ht, Hp, Hrev. split.
  - intros n Hel Hne. apply (reverse_map_inverse _ _ _ Hnodup) in Hel.
    by rewrite Hel, falsy_nonempty.
  - intros Hout. assert (reverse_map (fertilizer_map (backend_mappings g)) !! c = None) as ->.
    { apply eq_None_not_Some. by rewrite reverse_map_codes. }
    reflexivity.
Qed.

(** ** The category listing *)

(** X10: [get_categories] always answers, without any external call, with
    one entry per entry of the soil mapping and of the crop mapping, in the
    order of the mapping, each with the name and the code of that entry; on
    a started process the ids it lists are exactly the ids that the reverse
    mappings of [recommend_fertilizer] have an entry for. *)
Theorem categories_list_the_mappings fs g :
  startup fs = Started g →
  ∃ cats,
    get_categories (Scaled := Scaled) g = MkRan (Return cats) g [] ∧
    (λ e, (name e, id e)) <$> soil_types cats = soil_type_map (backend_mappings g) ∧
    (λ e, (name e, id e)) <$> crop_types cats = crop_type_map (backend_mappings g) ∧
    (∀ i, i ∈ id <$> soil_types cats ↔ is_Some (reverse_soil_map g !! i)) ∧
    (∀ i, i ∈ id <$> crop_types cats ↔ is_Some (reverse_crop_map g !! i)).
Proof.
  intros (_ & _ & Hsoil & Hcrop & _)%startup_Started.
  eexists. split; [apply get_categories_run |]. cbn [soil_types crop_types].
  split; [apply entries_pairs |]. split; [apply entries_pairs |].
  split; intros i; rewrite entries_ids.
  - by rewrite Hsoil, reverse_map_codes.
  - by rewrite Hcrop, reverse_map_codes.
Qed.

(** X11: on a started process whose listed soil ids, and whose listed crop
    ids, are pairwise distinct, every entry that [get_categories] lists is
    read back by the reverse mapping: the id of the entry resolves to the
    name of the entry. *)
Theorem listed_entry_resolves fs g cats :
  startup fs = Started g →
  outcome (get_categories (Scaled := Scaled) g) = Return cats →
  NoDup (id <$> soil_types cats) → NoDup (id <$> crop_types cats) →
  (∀ e, e ∈ soil_types cats → reverse_soil_map g !! id e = Some (name e)) ∧
  (∀ e, e ∈ crop_types cats → reverse_crop_map g !! id e = Some (name e)).
Proof.
  intros (_ & _ & Hsoil & Hcrop & _)%startup_Started.
  rewrite get_categories_run. cbn [outcome]. intros [= <-]. cbn [soil_types crop_types].
  rewrite !entries_ids. intros Hnds Hndc. rewrite Hsoil, Hcrop.
  split; intros e He%elem_of_entries; by apply reverse_map_inverse.
Qed.

(** X12: on a started process in which no listed soil and no listed crop has
    the empty name, a request that takes its soil id and its crop id from
    the listing of [get_categories] is never answered with status 400, and
    reaches the scaler. *)
Theorem listed_ids_are_accepted fs g cats data es ec :
  startup fs = Started g →
  outcome (get_categories (Scaled := Scaled) g) = Return cats →
  (∀ e, e ∈ soil_types cats → name e ≠ "") →
  (∀ e, e ∈ crop_types cats → name e ≠ "") →
  es ∈ soil_types cats → ec ∈ crop_types cats →
  Soil_Type_ID data = id es → Crop_Type_ID data = id ec →
  (∀ detail, outcome (recommend_fertilizer transform predict data g) ≠
             Raise (HTTPException 400 detail)) ∧
  (∃ rest, calls (recommend_fertilizer transform predict data g) =
           CallTransform (request_row g data) :: rest).
Proof.
  intros (_ & _ & Hsoil & Hcrop & _)%startup_Started.
  rewrite get_categories_run. cbn [outcome]. intros [= <-]. cbn [soil_types crop_types].
  intros Hnames Hnamec Hes Hec Hsid Hcid.
  assert (Hresolve : ∀ m e, (∀ e', e' ∈ entries m → name e' ≠ "") → e ∈ entries m →
                            falsy (reverse_map m !! id e) = false).
  { intros m e Hne He. apply elem_of_entries in He.
    destruct (reverse_map_is_Some _ _ _ He) as [n Hn]. rewrite Hn.
    apply falsy_nonempty. apply reverse_map_elem_of in Hn.
    apply (Hne {| id := id e; name := n |}). by apply elem_of_entries. }
  assert (Hok : falsy (reverse_soil_map g !! Soil_Type_ID data)
                || falsy (reverse_crop_map g !! Crop_Type_ID data) = false).
  { rewrite Hsoil, Hcrop, Hsid, Hcid. by rewrite !Hresolve. }
  split; [intros detail; by apply recommend_not_rejected |].
  by apply recommend_calls_transform.
Qed.

(** ** Start-up *)


(** X14: on a started process whose soil mapping, or whose crop mapping, is
    empty, every request is answered with the 400 of InvalidCategory, and
    neither the scaler nor the classifier is called. *)
Theorem empty_mapping_rejects_everything fs g data :
  startup fs = Started g →
  soil_type_map (backend_mappings g) = [] ∨ crop_type_map (backend_mappings g) = [] →
  recommend_fertilizer transform predict data g = MkRan (Raise InvalidCategory) g [].
Proof.
  intros (_ & _ & Hsoil & Hcrop & _)%startup_Started Hempty.
  rewrite recommend_fertilizer_run, Hsoil, Hcrop.
  assert (Hnone : ∀ i, reverse_map [] !! i = None).
  { intros i. apply eq_None_not_Some. rewrite reverse_map_codes. apply not_elem_of_nil. }
  destruct Hempty as [-> | ->]; rewrite Hnone; [done |].
  by rewrite orb_true_r.
Qed.

(** X15: the reverse mapping built from a forward mapping never has more
    entries than the forward mapping, and has as many exactly when the codes
    of the forward mapping are pairwise distinct: a collision of codes shows
    as a smaller reverse mapping. *)
Theorem reverse_map_size (m : CategoryMapping) :
  (size (reverse_map m) ≤ length m)%nat ∧
  (size (reverse_map m) = length m ↔ NoDup m.*2).
Proof.
  rewrite <- size_dom, dom_reverse_map, <- (length_fmap snd m).
  split; [apply size_list_to_set_le | apply size_list_to_set_NoDup].
Qed.

End Coverage.

(** ** The further properties on the small deployment *)

Lemma numeric_fields_reach_scaler_demo :
  (∃ rest, calls (Demo.demo_recommend example_input Demo.demo_globals) =
           CallTransform (request_row Demo.demo_globals example_input) :: rest) ∧
  (∀ x, ("Nitrogen", x) ∈ request_row Demo.demo_globals example_input → x = 38).
Proof.
  destruct (numeric_fields_reach_scaler Demo.demo_transform Demo.demo_predict
              example_input Demo.demo_globals)
    as (Hcalls & _ & _ & _ & _ & Hnitrogen & _).
  - by vm_compute.
  - split; [exact Hcalls | exact Hnitrogen].
Defined.

Lemma one_hot_indicator_demo :
  (∃ x, (soil_col "Loamy", x) ∈ request_row Demo.demo_globals example_input) ∧
  (∀ x, (soil_col "Loamy", x) ∈ request_row Demo.demo_globals example_input → x = 1) ∧
  (∀ n x, n ≠ "Loamy" →
          (soil_col n, x) ∈ request_row Demo.demo_globals example_input → x = 0).
Proof.
  destruct (one_hot_indicator Demo.demo_transform Demo.demo_predict
              example_input Demo.demo_globals "Loamy" "Sugarcane")
    as (_ & Hpresent & Hone & Hzero & _).
  - by vm_compute.
  - done.
  - by vm_compute.
  - done.
  - split; [| split; [exact Hone | exact Hzero]].
    apply Hpresent. apply (bool_decide_unpack _). by vm_compute.
Defined.

Lemma other_columns_are_zero_demo :
  (∃ rest, calls (Demo.demo_recommend example_input Demo.demo_globals) =
           CallTransform (request_row Demo.demo_globals example_input) :: rest) ∧
  (∀ c x, (c, x) ∈ request_row Demo.demo_globals example_input →
          c ∉ numeric_names → c ≠ soil_col "Loamy" → c ≠ crop_col "Sugarcane" → x = 0).
Proof.
  apply (other_columns_are_zero Demo.demo_transform Demo.demo_predict
           example_input Demo.demo_globals "Loamy" "Sugarcane");
    first [done | by vm_compute].
Defined.

Lemma absent_soils_are_indistinguishable_demo :
  request_row Demo.soilblind_globals example_input =
    request_row Demo.soilblind_globals (Demo.with_soil 4 example_input) ∧
  outcome (Demo.demo_recommend example_input Demo.soilblind_globals) =
    outcome (Demo.demo_recommend (Demo.with_soil 4 example_input) Demo.soilblind_globals) ∧
  calls (Demo.demo_recommend example_input Demo.soilblind_globals) =
    calls (Demo.demo_recommend (Demo.with_soil 4 example_input) Demo.soilblind_globals).
Proof.
  apply (absent_soils_are_indistinguishable Demo.demo_transform Demo.demo_predict
           example_input (Demo.with_soil 4 example_input) Demo.soilblind_globals
           "Loamy" "Sandy" "Sugarcane");
    first [ done | by vm_compute | apply (bool_decide_unpack _); by vm_compute ].
Defined.

Lemma rejected_iff_name_is_falsy_demo :
  ∃ detail,
    outcome (Demo.demo_recommend (Demo.with_soil 999 example_input) Demo.demo_globals) =
    Raise (HTTPException 400 detail).
Proof.
  apply (rejected_iff_name_is_falsy Demo.demo_transform Demo.demo_predict).
  left. by vm_compute.
Defined.

Lemma external_failure_is_500_demo :
  outcome (Demo.demo_recommend example_input Demo.narrow_globals) =
    Raise (HTTPException 500
             ("An internal server error occurred: "
              +:+ "X has a different number of features than StandardScaler is expecting.")) ∧
  calls (Demo.demo_recommend example_input Demo.narrow_globals) =
    [CallTransform (request_row Demo.narrow_globals example_input)].
Proof.
  apply (external_failure_is_500 Demo.demo_transform Demo.demo_predict
           example_input Demo.narrow_globals); by vm_compute.
Defined.

Lemma prediction_decoded_demo :
  outcome (Demo.demo_recommend example_input Demo.demo_globals) =
    Return {| recommended_fertilizer := Some "Urea" |}.
Proof.
  destruct (prediction_decoded Demo.demo_transform Demo.demo_predict
              Demo.demo_files example_input Demo.demo_globals
              [4; 5; 14; 18; -5; -5; 1; 0; 0; 1] 1 []) as [Hname _].
  - reflexivity.
  - apply (bool_decide_unpack _). by vm_compute.
  - by vm_compute.
  - by vm_compute.
  - by vm_compute.
  - apply (Hname "Urea"); [| done]. apply (bool_decide_unpack _). by vm_compute.
Defined.

Lemma categories_list_the_mappings_demo :
  ∃ cats,
    get_categories (Scaled := list Z) Demo.demo_globals =
      MkRan (Return cats) Demo.demo_globals [] ∧
    (λ e, (name e, id e)) <$> soil_types cats = soil_type_map Demo.demo_mappings ∧
    (λ e, (name e, id e)) <$> crop_types cats = crop_type_map Demo.demo_mappings ∧
    (∀ i, i ∈ id <$> soil_types cats ↔ is_Some (reverse_soil_map Demo.demo_globals !! i)) ∧
    (∀ i, i ∈ id <$> crop_types cats ↔ is_Some (reverse_crop_map Demo.demo_globals !! i)).
Proof.
  apply (categories_list_the_mappings (Scaled := list Z) Demo.demo_files Demo.demo_globals).
  reflexivity.
Defined.

Lemma listed_entry_resolves_demo :
  (∀ e, e ∈ entries (soil_type_map Demo.demo_mappings) →
        reverse_soil_map Demo.demo_globals !! id e = Some (name e)) ∧
  (∀ e, e ∈ entries (crop_type_map Demo.demo_mappings) →
        reverse_crop_map Demo.demo_globals !! id e = Some (name e)).
Proof.
  apply (listed_entry_resolves (Scaled := list Z) Demo.demo_files Demo.demo_globals
           {| soil_types := entries (soil_type_map Demo.demo_mappings);
              crop_types := entries (crop_type_map Demo.demo_mappings) |}).
  - reflexivity.
  - reflexivity.
  - apply (bool_decide_unpack _). by vm_compute.
  - apply (bool_decide_unpack _). by vm_compute.
Defined.

Lemma listed_ids_are_accepted_demo :
  (∀ detail, outcome (Demo.demo_recommend example_input Demo.demo_globals) ≠
             Raise (HTTPException 400 detail)) ∧
  (∃ rest, calls (Demo.demo_recommend example_input Demo.demo_globals) =
           CallTransform (request_row Demo.demo_globals example_input) :: rest).
Proof.
  apply (listed_ids_are_accepted Demo.demo_transform Demo.demo_predict
           Demo.demo_files Demo.demo_globals
           {| soil_types := entries (soil_type_map Demo.demo_mappings);
              crop_types := entries (crop_type_map Demo.demo_mappings) |}
           example_input {| id := 2; name := "Loamy" |} {| id := 10; name := "Sugarcane" |}).
  - reflexivity.
  - reflexivity.
  - apply Forall_forall. apply (bool_decide_unpack _). by vm_compute.
  - apply Forall_forall. apply (bool_decide_unpack _). by vm_compute.
  - apply elem_of_entries. apply (bool_decide_unpack _). by vm_compute.
  - apply elem_of_entries. apply (bool_decide_unpack _). by vm_compute.
  - reflexivity.
  - reflexivity.
Defined.


Lemma empty_mapping_rejects_everything_demo :
  Demo.demo_recommend example_input Demo.soilless_globals =
  MkRan (Raise InvalidCategory) Demo.soilless_globals [].
Proof.
  apply (empty_mapping_rejects_everything Demo.demo_transform Demo.demo_predict
           Demo.soilless_files Demo.soilless_globals example_input).
  - reflexivity.
  - by left.
Defined.

Lemma reverse_map_size_demo :
  size (reverse_map (soil_type_map Demo.demo_mappings)) =
  length (soil_type_map Demo.demo_mappings).
Proof.
  apply reverse_map_size. apply (bool_decide_unpack _). by vm_compute.
Defined.
